(** * The two-phase trainer of [utils/trainer.py]

    A shallow embedding of the [Trainer] class: its constructor, the
    checkpoint pair [snapshot]/[resume], the loss dispatch
    [loss_criterion], the epoch loop [fit] with its phase events, and the
    two epoch passes [train_epoch] and [test_epoch].

    The trainer is a Python object mutated in place and its methods raise
    exceptions, so every method is a computation in a state-and-error
    monad over the record [Trainer].  A raised exception keeps the state
    reached so far, as Python does.

    The model, the optimizer, the metric accumulator, the logger, the
    tensors and the checkpoint files are collaborators that the trainer
    only calls; they enter as interfaces (type classes), and the theorems
    hold for every implementation of them. *)

From Stdlib Require Import ZArith List Lia.
From stdpp Require Import gmap strings list pretty.

Local Open Scope Z_scope.

(** ** Exceptions and results *)

Inductive exn : Type :=
| AttributeError (attribute : string)
| KeyError (key : string)
| ValueError (message : string)
| ZeroDivisionError
| UnboundLocalError (variable : string)
| TypeError (message : string)
| IndexError (message : string)
| LoadError (filename : string).

Inductive result (A : Type) : Type :=
| Ok (a : A)
| Raised (e : exn).

Arguments Ok {A} a.
Arguments Raised {A} e.

Definition is_ok {A} (r : result A) : bool :=
  match r with Ok _ => true | Raised _ => false end.

(** ** Collaborator interfaces *)

(** The carrier types of the collaborators. [Tensor] stands for torch
    tensors, numpy arrays and the scalars derived from them; [Factor] for
    Python floats, which the trainer only passes through. *)
Class Types : Type := {
  Tensor : Type;
  Factor : Type;
  Model : Type;
  Optimizer : Type;
  OptimizerState : Type;
  ClassMetric : Type;
  Logger : Type;
  LoggedData : Type;
  FileSystem : Type
}.

(** A subscript of an array index expression: [a[i, :, 0]] is
    [getitem a [At i; All; At 0]]. *)
Inductive subscript : Type :=
| At (i : Z)
| All.

Class TensorOps `{Types} : Type := {
  shape : Tensor -> list Z;
  getitem : Tensor -> list subscript -> Tensor;
  str : Tensor -> string;
  (* torch.cuda.is_available() and tensor.cuda() *)
  cuda_is_available : bool;
  cuda : Tensor -> Tensor;
  (* tensor.cpu().numpy(), with or without a detach() before *)
  numpy : Tensor -> Tensor;
  (* targets.mode(1)[0] *)
  mode1 : Tensor -> Tensor;
  (* logprobabilities.exp().transpose(0, 1) *)
  exp_transpose : Tensor -> Tensor
}.

(** The auxiliary stats mapping, a Python dict with string keys. *)
Abbreviation Stats := (gmap string Tensor) (only parsing).

Section Interfaces.
Context `{Ty : Types}.

(** What every loss function of the model returns:
    [loss, logprobabilities, weights, stats]. *)
Record LossOutput : Type := {
  loss : Tensor;
  logprobabilities : Tensor;
  weights : Tensor;
  stats : Stats
}.

(** The keyword arguments [snapshot] passes to [model.save], which
    [model.load] hands back. *)
Record Snapshot : Type := {
  snapshot_optimizer_state_dict : OptimizerState;
  snapshot_epoch : Z;
  snapshot_logged_data : LoggedData
}.
End Interfaces.

Class ModelOps `{Types} : Type := {
  model_train : Model -> Model;
  model_eval : Model -> Model;
  model_cuda : Model -> Model;
  loss_cross_entropy : Model -> Tensor -> Tensor -> LossOutput;
  early_loss : Model -> Tensor -> Tensor -> Factor -> LossOutput;
  early_loss_simple : Model -> Tensor -> Tensor -> Factor -> LossOutput;
  early_loss_linear :
    Model -> Tensor -> Tensor -> Factor -> Factor -> LossOutput;
  early_loss_cross_entropy :
    Model -> Tensor -> Tensor -> Factor -> Factor -> LossOutput;
  predict : Model -> Tensor -> Tensor -> Tensor;
  (* loss.backward(): gradients accumulate in the parameters *)
  backward : Model -> Tensor -> Model;
  (* model.save(filename, **kwargs) and model.load(filename) *)
  model_save : FileSystem -> string -> Model -> Snapshot -> FileSystem;
  model_load : FileSystem -> string -> Model -> option (Model * Snapshot);
  (* os.path.exists *)
  path_exists : FileSystem -> string -> bool
}.

Class OptimizerOps `{Types} : Type := {
  (* torch.optim.Adam(model.parameters(), lr=learning_rate) *)
  Adam : Model -> Factor -> Optimizer;
  zero_grad : Optimizer -> Model -> Model;
  step : Optimizer -> Model -> Optimizer * Model;
  state_dict : Optimizer -> OptimizerState;
  load_state_dict : Optimizer -> OptimizerState -> Optimizer
}.

Class MetricOps `{Types} : Type := {
  (* ClassMetric(num_classes=...) *)
  new_metric : Z -> ClassMetric;
  metric_add : ClassMetric -> Stats -> ClassMetric * Stats;
  update_confmat : ClassMetric -> Tensor -> Tensor -> ClassMetric * Tensor;
  hist : ClassMetric -> Tensor
}.

Class LoggerOps `{Types} : Type := {
  (* Logger(columns=..., modes=..., rootpath=...) *)
  new_logger : list string -> list string -> string -> Logger;
  set_mode : Logger -> string -> Logger;
  log : Logger -> Stats -> Z -> Logger;
  logger_resume : Logger -> LoggedData -> Logger;
  get_data : Logger -> LoggedData;
  (* the attribute logger.data *)
  data : Logger -> LoggedData
}.

(** ** The trainer *)

Definition CLASSIFICATION_PHASE_NAME : string := "classification".
Definition EARLINESS_PHASE_NAME : string := "earliness".

(** [os.path.join] of a directory and a relative file name. *)
Definition path_join (dir name : string) : string :=
  if String.eqb dir "" then name
  else if String.eqb (String.substring (String.length dir - 1) 1 dir) "/"
       then dir +:+ name
       else dir +:+ "/" +:+ name.

Section Trainer.
Context `{Ty : Types}.
Context `{!TensorOps, !ModelOps, !OptimizerOps, !MetricOps, !LoggerOps}.

(** A data loader: the batches of one pass, in order, and the metadata
    the constructor reads.  Every pass iterates over the same list; the
    trainer itself depends on the batches only through the calls it
    makes on them. *)
Record DataLoader : Type := {
  batches : list (Tensor * Tensor);
  loader_batch_size : Z;
  dataset_nclasses : Z
}.

(** The trace: what the trainer does to the outside, in the order it
    happens.  [Print] is a line of [print], [PrinterPrint] a call of
    [printer.print], [ModelSave] a call of [model.save] with the epoch
    it is given, and the visdom events are the calls on [self.visdom].
    [TrainEpoch] and [TestEpoch] mark the entry into a pass, with the
    epoch argument of the pass: the calls [model.train()] of
    [train_epoch] and [model.eval()] of [test_epoch]. *)
Inductive event : Type :=
| Print (line : string)
| PrinterPrint (stats : Stats) (epoch : Z) (prefix : string)
| ModelSave (filename : string) (epoch : Z)
| TrainEpoch (epoch : option Z)
| TestEpoch (epoch : option Z)
| VisdomConfusionMatrix (cm : Tensor)
| VisdomPlot (values : Tensor) (name : string) (legend : option (list string))
| VisdomBar (values : Tensor) (name : string)
| VisdomPlotEpochs (series : LoggedData).

(** The attributes of a [Trainer] object, followed by the world it
    runs in: the checkpoint files [fs] and the trace [out].  The
    attribute [visdom] exists only when a visdom environment was given
    to the constructor. *)
Record Trainer : Type := {
  epochs : Z;
  earliness_factor : Factor;
  switch_epoch : Z;
  batch_size : Z;
  traindataloader : DataLoader;
  validdataloader : DataLoader;
  nclasses : Z;
  entropy_factor : Factor;
  store : string;
  test_every_n_epochs : Z;
  logger : Logger;
  show_n_samples : Z;
  lossmode : string;
  model : Model;
  optimizer : Optimizer;
  visdom : option string;
  epoch : Z;
  fs : FileSystem;
  out : list event
}.

Definition with_logger (l : Logger) (s : Trainer) : Trainer :=
  {| epochs := epochs s; earliness_factor := earliness_factor s;
     switch_epoch := switch_epoch s; batch_size := batch_size s;
     traindataloader := traindataloader s;
     validdataloader := validdataloader s; nclasses := nclasses s;
     entropy_factor := entropy_factor s; store := store s;
     test_every_n_epochs := test_every_n_epochs s; logger := l;
     show_n_samples := show_n_samples s; lossmode := lossmode s;
     model := model s; optimizer := optimizer s; visdom := visdom s;
     epoch := epoch s; fs := fs s; out := out s |}.

Definition with_model (m : Model) (s : Trainer) : Trainer :=
  {| epochs := epochs s; earliness_factor := earliness_factor s;
     switch_epoch := switch_epoch s; batch_size := batch_size s;
     traindataloader := traindataloader s;
     validdataloader := validdataloader s; nclasses := nclasses s;
     entropy_factor := entropy_factor s; store := store s;
     test_every_n_epochs := test_every_n_epochs s; logger := logger s;
     show_n_samples := show_n_samples s; lossmode := lossmode s;
     model := m; optimizer := optimizer s; visdom := visdom s;
     epoch := epoch s; fs := fs s; out := out s |}.

Definition with_optimizer (o : Optimizer) (s : Trainer) : Trainer :=
  {| epochs := epochs s; earliness_factor := earliness_factor s;
     switch_epoch := switch_epoch s; batch_size := batch_size s;
     traindataloader := traindataloader s;
     validdataloader := validdataloader s; nclasses := nclasses s;
     entropy_factor := entropy_factor s; store := store s;
     test_every_n_epochs := test_every_n_epochs s; logger := logger s;
     show_n_samples := show_n_samples s; lossmode := lossmode s;
     model := model s; optimizer := o; visdom := visdom s;
     epoch := epoch s; fs := fs s; out := out s |}.

Definition with_epoch (e : Z) (s : Trainer) : Trainer :=
  {| epochs := epochs s; earliness_factor := earliness_factor s;
     switch_epoch := switch_epoch s; batch_size := batch_size s;
     traindataloader := traindataloader s;
     validdataloader := validdataloader s; nclasses := nclasses s;
     entropy_factor := entropy_factor s; store := store s;
     test_every_n_epochs := test_every_n_epochs s; logger := logger s;
     show_n_samples := show_n_samples s; lossmode := lossmode s;
     model := model s; optimizer := optimizer s; visdom := visdom s;
     epoch := e; fs := fs s; out := out s |}.

Definition with_fs (f : FileSystem) (s : Trainer) : Trainer :=
  {| epochs := epochs s; earliness_factor := earliness_factor s;
     switch_epoch := switch_epoch s; batch_size := batch_size s;
     traindataloader := traindataloader s;
     validdataloader := validdataloader s; nclasses := nclasses s;
     entropy_factor := entropy_factor s; store := store s;
     test_every_n_epochs := test_every_n_epochs s; logger := logger s;
     show_n_samples := show_n_samples s; lossmode := lossmode s;
     model := model s; optimizer := optimizer s; visdom := visdom s;
     epoch := epoch s; fs := f; out := out s |}.

Definition with_out (o : list event) (s : Trainer) : Trainer :=
  {| epochs := epochs s; earliness_factor := earliness_factor s;
     switch_epoch := switch_epoch s; batch_size := batch_size s;
     traindataloader := traindataloader s;
     validdataloader := validdataloader s; nclasses := nclasses s;
     entropy_factor := entropy_factor s; store := store s;
     test_every_n_epochs := test_every_n_epochs s; logger := logger s;
     show_n_samples := show_n_samples s; lossmode := lossmode s;
     model := model s; optimizer := optimizer s; visdom := visdom s;
     epoch := epoch s; fs := fs s; out := o |}.

(** *** The state-and-error monad of the methods *)

Definition M (A : Type) : Type := Trainer -> Trainer * result A.

Definition ret {A} (a : A) : M A := fun s => (s, Ok a).

Definition raise {A} (e : exn) : M A := fun s => (s, Raised e).

Definition bind {A B} (m : M A) (k : A -> M B) : M B :=
  fun s =>
    match m s with
    | (s', Ok a) => k a s'
    | (s', Raised e) => (s', Raised e)
    end.

Definition get : M Trainer := fun s => (s, Ok s).

Definition modify (f : Trainer -> Trainer) : M unit :=
  fun s => (f s, Ok tt).

Definition emit (ev : event) : M unit :=
  modify (fun s => with_out (out s ++ [ev]) s).

(** [d[key]] on a stats dict. *)
Definition subscript_stats (d : Stats) (key : string) : M Tensor :=
  match d !! key with
  | Some v => ret v
  | None => raise (KeyError key)
  end.
End Trainer.

Declare Scope trainer_scope.
Delimit Scope trainer_scope with trainer.
Notation "'do' x <- m ; k" := (bind m (fun x => k))
  (at level 10, x name, m at level 100, k at level 200) : trainer_scope.
Notation "'do' ' pat <- m ; k" :=
  (bind m (fun x => match x with pat => k end))
  (at level 10, pat pattern, m at level 100, k at level 200) : trainer_scope.
Notation "m >> k" := (bind m (fun _ => k))
  (at level 100, k at level 200, right associativity) : trainer_scope.

Section Methods.
Context `{Ty : Types}.
Context `{!TensorOps, !ModelOps, !OptimizerOps, !MetricOps, !LoggerOps}.
Local Open Scope trainer_scope.

(** A pure call that may raise. *)
Definition lift {A} (r : result A) : M A := fun s => (s, r).

(** [for x in l: body(x)]. *)
Fixpoint for_each {A} (l : list A) (body : A -> M unit) : M unit :=
  match l with
  | [] => ret tt
  | x :: rest => body x >> for_each rest body
  end.

Definition newline : string := String (Ascii.ascii_of_nat 10) "".

(** *** Checkpoints *)

Definition get_classification_model_name (s : Trainer) : string :=
  path_join (store s) ("model_" +:+ CLASSIFICATION_PHASE_NAME +:+ ".pth").

Definition get_earliness_model_name (s : Trainer) : string :=
  path_join (store s) ("model_" +:+ EARLINESS_PHASE_NAME +:+ ".pth").

Definition resume (filename : string) : M unit :=
  do s <- get;
  match model_load (fs s) filename (model s) with
  | None => raise (LoadError filename)
  | Some (m, snapshot) =>
      modify (with_model (if cuda_is_available then model_cuda m else m)) >>
      modify (with_epoch (snapshot_epoch snapshot)) >>
      modify (fun s =>
                with_optimizer
                  (load_state_dict (optimizer s)
                     (snapshot_optimizer_state_dict snapshot)) s) >>
      modify (fun s =>
                with_logger
                  (logger_resume (logger s) (snapshot_logged_data snapshot))
                  s)
  end.

Definition snapshot (filename : string) : M unit :=
  do s <- get;
  modify (with_fs
            (model_save (fs s) filename (model s)
               {| snapshot_optimizer_state_dict := state_dict (optimizer s);
                  snapshot_epoch := epoch s;
                  snapshot_logged_data := get_data (logger s) |})) >>
  emit (ModelSave filename (epoch s)).

(** *** Phases and loss dispatch *)

Definition get_phase (s : Trainer) : string :=
  if epoch s <? switch_epoch s then CLASSIFICATION_PHASE_NAME
  else EARLINESS_PHASE_NAME.

Definition wrong_loss_mode : string :=
  "wrong loss_mode please choose either 'early_reward',  " +:+
  "'twophase_early_reward', 'twophase_linear_loss', or 'twophase_cross_entropy'".

(** [loss_criterion] reads the trainer and changes nothing.  The
    argument [epoch] may be [None]; a two-phase branch in which neither
    phase test succeeds falls off the end of the method and returns
    [None]. *)
Definition loss_criterion (s : Trainer) (inputs targets : Tensor)
    (epoch : option Z) (earliness_factor entropy_factor : Factor)
  : result (option LossOutput) :=
  match epoch with
  | None => Ok (Some (loss_cross_entropy (model s) inputs targets))
  | Some _ =>
    if String.eqb (lossmode s) "early_reward" then
      Ok (Some (early_loss (model s) inputs targets earliness_factor))
    else if String.eqb (lossmode s) "loss_cross_entropy" then
      Ok (Some (loss_cross_entropy (model s) inputs targets))
    else if String.eqb (lossmode s) "twophase_early_reward" then
      if String.eqb (get_phase s) CLASSIFICATION_PHASE_NAME then
        Ok (Some (loss_cross_entropy (model s) inputs targets))
      else if String.eqb (get_phase s) EARLINESS_PHASE_NAME then
        Ok (Some (early_loss_simple (model s) inputs targets
                    earliness_factor))
      else Ok None
    else if String.eqb (lossmode s) "twophase_linear_loss" then
      if String.eqb (get_phase s) CLASSIFICATION_PHASE_NAME then
        Ok (Some (loss_cross_entropy (model s) inputs targets))
      else if String.eqb (get_phase s) EARLINESS_PHASE_NAME then
        Ok (Some (early_loss_linear (model s) inputs targets
                    earliness_factor entropy_factor))
      else Ok None
    else if String.eqb (lossmode s) "twophase_cross_entropy" then
      if String.eqb (get_phase s) CLASSIFICATION_PHASE_NAME then
        Ok (Some (loss_cross_entropy (model s) inputs targets))
      else if String.eqb (get_phase s) EARLINESS_PHASE_NAME then
        Ok (Some (early_loss_cross_entropy (model s) inputs targets
                    earliness_factor entropy_factor))
      else Ok None
    else Raised (ValueError wrong_loss_mode)
  end.

(** [loss, logprobabilities, weights, stats = self.loss_criterion(...)]. *)
Definition unpack_loss (r : option LossOutput) : M LossOutput :=
  match r with
  | Some lo => ret lo
  | None => raise (TypeError "cannot unpack non-iterable NoneType object")
  end.

(** *** Phase events *)

Definition starting_phase_classification_event : M unit :=
  emit (Print "starting training phase classification").

Definition ending_phase_classification_event : M unit :=
  emit (Print "ending training phase classification") >>
  do s <- get;
  snapshot (get_classification_model_name s).

Definition starting_phase_earliness_event : M unit :=
  emit (Print "starting training phase earliness").

Definition ending_phase_earliness_event : M unit :=
  emit (Print "ending training phase earliness") >>
  do s <- get;
  snapshot (get_earliness_model_name s).

Definition check_events : M unit :=
  do s <- get;
  if epoch s =? 0 then starting_phase_classification_event
  else if epoch s =? switch_epoch s then
    ending_phase_classification_event >>
    starting_phase_earliness_event
  else if epoch s =? epochs s then ending_phase_earliness_event
  else ret tt.

Definition new_epoch : M unit :=
  check_events >>
  modify (fun s => with_epoch (epoch s + 1) s).

(** *** Epoch passes *)

Definition to_device (t : Tensor) : Tensor :=
  if cuda_is_available then cuda t else t.

(** The body of the batch loop of [train_epoch]; it returns the metric
    accumulator and the new binding of the local [stats]. *)
Definition train_batch (epoch : option Z) (metric : ClassMetric)
    (batch : Tensor * Tensor) : M (ClassMetric * Stats) :=
  modify (fun s => with_model (zero_grad (optimizer s) (model s)) s) >>
  let inputs := to_device (fst batch) in
  let targets := to_device (snd batch) in
  do s <- get;
  do r <- lift (loss_criterion s inputs targets epoch
                  (earliness_factor s) (entropy_factor s));
  do lo <- unpack_loss r;
  let prediction := predict (model s) (logprobabilities lo) (weights lo) in
  modify (fun s => with_model (backward (model s) (loss lo)) s) >>
  modify (fun s =>
            let (o, m) := step (optimizer s) (model s) in
            with_optimizer o (with_model m s)) >>
  let (metric1, folded) := metric_add metric (stats lo) in
  let (metric2, accuracy) :=
    update_confmat metric1 (numpy (mode1 targets)) (numpy prediction) in
  ret (metric2, <["accuracy" := accuracy]> folded).

(** The batch loop; [stats] is [None] while the local is unbound. *)
Fixpoint train_batches (epoch : option Z) (metric : ClassMetric)
    (stats : option Stats) (l : list (Tensor * Tensor))
  : M (option Stats) :=
  match l with
  | [] => ret stats
  | batch :: rest =>
      do ' (metric', stats') <- train_batch epoch metric batch;
      train_batches epoch metric' (Some stats') rest
  end.

Definition train_epoch (epoch : option Z) : M Stats :=
  emit (TrainEpoch epoch) >>
  modify (fun s => with_model (model_train (model s)) s) >>
  do s <- get;
  let metric := new_metric (nclasses s) in
  do stats <- train_batches epoch metric None (batches (traindataloader s));
  match stats with
  | Some st => ret st
  | None => raise (UnboundLocalError "stats")
  end.

(** The locals of [test_epoch] that its batch loop binds. *)
Record TestLocals : Type := {
  local_inputs : Tensor;
  local_targets : Tensor;
  local_logprobabilities : Tensor;
  local_weights : Tensor;
  local_stats : Stats
}.

Definition test_batch (epoch : option Z) (metric : ClassMetric)
    (batch : Tensor * Tensor) : M (ClassMetric * TestLocals) :=
  let inputs := to_device (fst batch) in
  let targets := to_device (snd batch) in
  do s <- get;
  do r <- lift (loss_criterion s inputs targets epoch
                  (earliness_factor s) (entropy_factor s));
  do lo <- unpack_loss r;
  let prediction := predict (model s) (logprobabilities lo) (weights lo) in
  let (metric1, folded) := metric_add metric (stats lo) in
  let (metric2, accuracy) :=
    update_confmat metric1 (numpy (mode1 targets)) (numpy prediction) in
  ret (metric2,
       {| local_inputs := inputs; local_targets := targets;
          local_logprobabilities := logprobabilities lo;
          local_weights := weights lo;
          local_stats := <["accuracy" := accuracy]> folded |}).

Fixpoint test_batches (epoch : option Z) (metric : ClassMetric)
    (locals : option TestLocals) (l : list (Tensor * Tensor))
  : M (ClassMetric * option TestLocals) :=
  match l with
  | [] => ret (metric, locals)
  | batch :: rest =>
      do ' (metric', locals') <- test_batch epoch metric batch;
      test_batches epoch metric' (Some locals') rest
  end.

Definition test_epoch (epoch : option Z) : M Stats :=
  emit (TestEpoch epoch) >>
  modify (fun s => with_model (model_eval (model s)) s) >>
  do s <- get;
  let metric := new_metric (nclasses s) in
  do ' (metric', locals) <-
    test_batches epoch metric None (batches (validdataloader s));
  match locals with
  | None => raise (UnboundLocalError "stats")
  | Some l =>
      let stats1 := <["confusion_matrix" := hist metric']> (local_stats l) in
      let stats2 := <["targets" := numpy (local_targets l)]> stats1 in
      let stats3 := <["inputs" := numpy (local_inputs l)]> stats2 in
      let stats4 := <["weights" := numpy (local_weights l)]> stats3 in
      let probas := exp_transpose (local_logprobabilities l) in
      ret (<["probas" := numpy probas]> stats4)
  end.

(** *** The epoch loop *)

(** An access to the attribute [self.visdom]. *)
Definition get_visdom : M string :=
  do s <- get;
  match visdom s with
  | Some v => ret v
  | None => raise (AttributeError "visdom")
  end.

(** [a.shape[0]]. *)
Definition shape0 (a : Tensor) : M Z :=
  match shape a with
  | n :: _ => ret n
  | [] => raise (IndexError "tuple index out of range")
  end.

(** The body of [for i in range(n_samples)] in [fit]. *)
Definition report_sample (stats : Stats) (legend : list string)
    (targets : Tensor) (i : Z) : M unit :=
  let classid := getitem targets [At i; At 0] in
  do probas <- subscript_stats stats "probas";
  (if Nat.eqb (length (shape probas)) 3 then
     do _ <- get_visdom;
     do probas <- subscript_stats stats "probas";
     emit (VisdomPlot (getitem probas [All; At i; All])
             ("sample " +:+ pretty i +:+ " P(y) (class=" +:+ str classid
              +:+ ")")
             (Some legend))
   else ret tt) >>
  do _ <- get_visdom;
  do inputs <- subscript_stats stats "inputs";
  emit (VisdomPlot (getitem inputs [At i; All; At 0])
          ("sample " +:+ pretty i +:+ " x (class=" +:+ str classid +:+ ")")
          None) >>
  do _ <- get_visdom;
  do weights <- subscript_stats stats "weights";
  emit (VisdomBar (getitem weights [At i; All])
          ("sample " +:+ pretty i +:+ " P(t) (class=" +:+ str classid
           +:+ ")")).

(** The visual report at the end of every iteration of [fit]. *)
Definition report (stats : Stats) : M unit :=
  do _ <- get_visdom;
  do cm <- subscript_stats stats "confusion_matrix";
  emit (VisdomConfusionMatrix cm) >>
  do s <- get;
  let legend :=
    map (fun c => "class " +:+ pretty c) (seqZ 0 (nclasses s)) in
  do targets <- subscript_stats stats "targets";
  do rows <- shape0 targets;
  let n_samples :=
    if show_n_samples s <? rows then show_n_samples s else rows in
  for_each (seqZ 0 n_samples) (report_sample stats legend targets) >>
  do _ <- get_visdom;
  do s <- get;
  emit (VisdomPlotEpochs (get_data (logger s))).

(** The test pass of an iteration, run when the epoch is a multiple of
    [test_every_n_epochs]; [%] by zero raises. *)
Definition test_step (stats : Stats) : M Stats :=
  do s <- get;
  if test_every_n_epochs s =? 0 then raise ZeroDivisionError
  else if epoch s mod test_every_n_epochs s =? 0 then
    modify (fun s => with_logger (set_mode (logger s) "test") s) >>
    do stats' <- test_epoch (Some (epoch s));
    modify (fun s => with_logger (log (logger s) stats' (epoch s)) s) >>
    emit (PrinterPrint stats' (epoch s) (newline +:+ "valid: ")) >>
    ret stats'
  else ret stats.

(** One iteration of the [while] loop of [fit]: the advance of the
    epoch counter and the passes of the new epoch, which leave the
    stats of the last pass run, and then the visual report on them. *)
Definition epoch_passes : M Stats :=
  new_epoch >>
  modify (fun s => with_logger (set_mode (logger s) "train") s) >>
  do s <- get;
  do stats <- train_epoch (Some (epoch s));
  emit (PrinterPrint stats (epoch s) (newline +:+ "train: ")) >>
  test_step stats.

Definition fit_iteration : M unit :=
  do stats <- epoch_passes;
  report stats.

(** [while self.epoch < self.epochs: ...], with a bound on the number
    of iterations. *)
Fixpoint fit_loop (fuel : nat) : M unit :=
  match fuel with
  | O => ret tt
  | S fuel' =>
      do s <- get;
      if epoch s <? epochs s then fit_iteration >> fit_loop fuel'
      else ret tt
  end.

(** Every iteration adds one to [epoch], so [epochs - epoch] iterations
    are all the loop can make: with that bound the loop stops only when
    [epoch < epochs] fails or an iteration raises ([fit_loop_epoch]),
    and a larger bound changes nothing ([fit_loop_fuel]). *)
Definition fit : M LoggedData :=
  do s <- get;
  fit_loop (Z.to_nat (epochs s - epoch s)) >>
  check_events >>
  do s <- get;
  ret (data (logger s)).

(** *** The constructor *)

Record Arguments : Type := {
  arg_model : Model;
  arg_traindataloader : DataLoader;
  arg_validdataloader : DataLoader;
  arg_epochs : Z;
  arg_switch_epoch : Z;
  arg_learning_rate : Factor;
  arg_earliness_factor : Factor;
  arg_entropy_factor : Factor;
  arg_store : string;
  arg_test_every_n_epochs : Z;
  arg_visdomenv : option string;
  arg_show_n_samples : Z;
  arg_loss_mode : string;
  arg_overwrite : bool
}.

(** The constructor runs in the world it is given: the checkpoint files
    present, and an empty trace. *)
Definition __init__ (a : Arguments) (world : FileSystem)
  : Trainer * result unit :=
  let self :=
    {| epochs := arg_epochs a;
       earliness_factor := arg_earliness_factor a;
       switch_epoch := arg_switch_epoch a;
       batch_size := loader_batch_size (arg_validdataloader a);
       traindataloader := arg_traindataloader a;
       validdataloader := arg_validdataloader a;
       nclasses := dataset_nclasses (arg_traindataloader a);
       entropy_factor := arg_entropy_factor a;
       store := arg_store a;
       test_every_n_epochs := arg_test_every_n_epochs a;
       logger := new_logger ["accuracy"] ["train"; "test"] (arg_store a);
       show_n_samples := arg_show_n_samples a;
       lossmode := arg_loss_mode a;
       model := arg_model a;
       optimizer := Adam (arg_model a) (arg_learning_rate a);
       visdom := arg_visdomenv a;
       epoch := 0;
       fs := world;
       out := [] |} in
  (if path_exists world (get_classification_model_name self)
      && negb (arg_overwrite a)
   then
     emit (Print ("Resuming from snapshot "
                  +:+ get_classification_model_name self +:+ ".")) >>
     resume (get_classification_model_name self)
   else ret tt) self.
End Methods.

(** ** Observations on the trace *)

(** The four phase events, each known by the line it prints. *)
Inductive phase_event : Type :=
| StartingClassification
| EndingClassification
| StartingEarliness
| EndingEarliness.

Definition notification (ev : phase_event) : string :=
  match ev with
  | StartingClassification => "starting training phase classification"
  | EndingClassification => "ending training phase classification"
  | StartingEarliness => "starting training phase earliness"
  | EndingEarliness => "ending training phase earliness"
  end.

Section Observations.
Context `{Ty : Types}.

(** The lines printed, in order. *)
Fixpoint prints (l : list event) : list string :=
  match l with
  | [] => []
  | Print line :: rest => line :: prints rest
  | _ :: rest => prints rest
  end.

(** The checkpoint writes, in order: file name and saved epoch. *)
Fixpoint saves (l : list event) : list (string * Z) :=
  match l with
  | [] => []
  | ModelSave filename e :: rest => (filename, e) :: saves rest
  | _ :: rest => saves rest
  end.

(** The epoch arguments of the train passes and of the test passes. *)
Fixpoint train_passes (l : list event) : list (option Z) :=
  match l with
  | [] => []
  | TrainEpoch e :: rest => e :: train_passes rest
  | _ :: rest => train_passes rest
  end.

Fixpoint test_passes (l : list event) : list (option Z) :=
  match l with
  | [] => []
  | TestEpoch e :: rest => e :: test_passes rest
  | _ :: rest => test_passes rest
  end.

(** How many times a phase event fired in a trace. *)
Definition fired (ev : phase_event) (l : list event) : nat :=
  count_occ String.string_dec (prints l) (notification ev).

(** The epochs at which a checkpoint file was written. *)
Definition writes (filename : string) (l : list event) : list Z :=
  map snd (List.filter (fun w => String.eqb (fst w) filename) (saves l)).

(** The part of a trace that the phase events make. *)
Definition is_phase (ev : event) : bool :=
  match ev with
  | Print _ | ModelSave _ _ => true
  | _ => false
  end.

Definition phase_log (l : list event) : list event :=
  List.filter is_phase l.

(** What [check_events] adds to the trace at epoch [e], as a function
    of the configuration of [s] (see [check_events_out]). *)
Definition check_out (s : Trainer) (e : Z) : list event :=
  if e =? 0 then [Print (notification StartingClassification)]
  else if e =? switch_epoch s then
    [Print (notification EndingClassification);
     ModelSave (path_join (store s) "model_classification.pth") e;
     Print (notification StartingEarliness)]
  else if e =? epochs s then
    [Print (notification EndingEarliness);
     ModelSave (path_join (store s) "model_earliness.pth") e]
  else [].

(** The attributes that no method assigns after the constructor. *)
Definition frozen (s : Trainer) :=
  (epochs s, switch_epoch s, store s, test_every_n_epochs s, visdom s,
   lossmode s, nclasses s, show_n_samples s, traindataloader s,
   validdataloader s, earliness_factor s, entropy_factor s, batch_size s).

(** [s'] comes from [s] by steps that touch only the model, the
    optimizer and the logger, and add no phase event to the trace. *)
Definition silent (s s' : Trainer) : Prop :=
  frozen s' = frozen s /\ epoch s' = epoch s /\ fs s' = fs s /\
  exists q, out s' = out s ++ q /\ phase_log q = [].

Definition Silent {A} (m : M A) : Prop :=
  forall s, silent s (fst (m s)).

(** The calls on [self.visdom], and among them the bar plots. *)
Definition is_visdom (ev : event) : bool :=
  match ev with
  | VisdomConfusionMatrix _ | VisdomPlot _ _ _ | VisdomBar _ _
  | VisdomPlotEpochs _ => true
  | _ => false
  end.

Definition is_bar (ev : event) : bool :=
  match ev with
  | VisdomBar _ _ => true
  | _ => false
  end.

(** [s'] is [s] with calls on visdom added to the trace, and nothing
    else changed. *)
Definition plots_only (s s' : Trainer) : Prop :=
  exists q, s' = with_out (out s ++ q) s /\ forallb is_visdom q = true.

Definition PlotsOnly {A} (m : M A) : Prop :=
  forall s, plots_only s (fst (m s)).

(** The loss modes that [loss_criterion] accepts. *)
Definition accepted_loss_modes : list string :=
  ["early_reward"; "loss_cross_entropy"; "twophase_early_reward";
   "twophase_linear_loss"; "twophase_cross_entropy"].
End Observations.

(** ** Properties of collaborators that some theorems assume *)

Section Assumptions.
Context `{Ty : Types}.
Context `{!TensorOps, !ModelOps, !OptimizerOps, !MetricOps, !LoggerOps}.

(** [model.load] hands back what [model.save] was given. *)
Definition faithful_storage : Prop :=
  forall world filename m snap m0,
    exists m',
      model_load (model_save world filename m snap) filename m0
      = Some (m', snap).

(** [state_dict] after [load_state_dict] is the loaded state. *)
Definition faithful_optimizer : Prop :=
  forall o st, state_dict (load_state_dict o st) = st.

(** [get_data] after [resume] is the resumed series. *)
Definition faithful_logger : Prop :=
  forall l d, get_data (logger_resume l d) = d.

(** The stats a train pass returns never have the key. *)
Definition train_stats_without (key : string) : Prop :=
  forall e s s' (st : Stats),
    train_epoch e s = (s', Ok st) -> st !! key = None.

(** Two properties of the collaborators that give it: no loss of the
    model reports the key in its stats, and the metric accumulator
    folds stats without the key into stats without the key. *)
Definition keyless_losses (key : string) : Prop :=
  forall m i t a b,
    stats (loss_cross_entropy m i t) !! key = None /\
    stats (early_loss m i t a) !! key = None /\
    stats (early_loss_simple m i t a) !! key = None /\
    stats (early_loss_linear m i t a b) !! key = None /\
    stats (early_loss_cross_entropy m i t a b) !! key = None.

Definition keyless_folding (key : string) : Prop :=
  forall metric (st : Stats),
    st !! key = None -> snd (metric_add metric st) !! key = None.

(** The epochs at which a run of [fit] checks its events: one check
    per iteration, made before the counter advances, and one after the
    loop when the loop returns. *)
Definition checked (s : Trainer) : list Z :=
  seqZ (epoch s) (epoch (fst (fit s)) - epoch s) ++
  (if is_ok (snd (fit s)) then [epoch (fst (fit s))] else []).

(** A save makes its file exist and leaves every other file as it is. *)
Definition keeping_storage : Prop :=
  forall world f m snap,
    path_exists (model_save world f m snap) f = true /\
    forall f', f' <> f ->
      path_exists (model_save world f m snap) f' = path_exists world f' /\
      forall m0,
        model_load (model_save world f m snap) f' m0 = model_load world f' m0.

(** The file [f] exists in [world] and loads as a checkpoint of epoch
    [e]. *)
Definition holds_checkpoint (world : FileSystem) (f : string) (e : Z)
  : Prop :=
  path_exists world f = true /\
  forall m0, exists m' snap,
    model_load world f m0 = Some (m', snap) /\ snapshot_epoch snap = e.

(** The test pass runs at epoch [e]: [e % test_every_n_epochs == 0]
    is evaluated without error and holds. *)
Definition test_due (s : Trainer) (e : Z) : Prop :=
  test_every_n_epochs s <> 0 /\ e mod test_every_n_epochs s = 0.
End Assumptions.

(** ** A small implementation of the collaborators

    Integers stand for tensors, factors, the model, the optimizer and
    the metric accumulator; the logger keeps its mode and the list of
    logged (mode, epoch) pairs; checkpoint files are a finite map from
    file names to what [model.save] was given.  The accumulator folds
    the stats of the model unchanged, so the stats of a train pass have
    the keys of the model's loss and "accuracy". *)
Module Toy.

Definition File : Type := (Z * (Z * Z * list (string * Z)))%type.

#[export] Instance types : Types := {|
  Tensor := Z;
  Factor := Z;
  Model := Z;
  Optimizer := Z;
  OptimizerState := Z;
  ClassMetric := Z;
  Logger := (string * list (string * Z))%type;
  LoggedData := list (string * Z);
  FileSystem := gmap string File
|}.

Definition toy_shape (_ : Z) : list Z := [1; 1; 1].
Definition toy_getitem (t : Z) (_ : list subscript) : Z := t.
Definition same (t : Z) : Z := t.

#[export] Instance tensor_ops : @TensorOps types :=
  @Build_TensorOps types toy_shape toy_getitem pretty false
    same same same same.

Definition toy_loss (kind : Z) (inputs targets : Z) : @LossOutput types :=
  {| loss := kind; logprobabilities := inputs; weights := targets;
     stats := ({[ "loss" := kind ]} : gmap string Z) |}.

Definition to_file (m : Z) (s : @Snapshot types) : File :=
  (m, (snapshot_optimizer_state_dict s, snapshot_epoch s,
       snapshot_logged_data s)).

Definition of_file (f : File) : Z * @Snapshot types :=
  (fst f,
   {| snapshot_optimizer_state_dict := fst (fst (snd f));
      snapshot_epoch := snd (fst (snd f));
      snapshot_logged_data := snd (snd f) |}).

Definition toy_loss1 (kind : Z) (_ i t _ : Z) := toy_loss kind i t.
Definition toy_loss2 (kind : Z) (_ i t _ _ : Z) := toy_loss kind i t.
Definition toy_predict (_ logprobabilities _ : Z) : Z := logprobabilities.
Definition toy_backward (m _ : Z) : Z := m.
Definition toy_save (w : gmap string File) (f : string) (m : Z)
    (s : @Snapshot types) : gmap string File :=
  <[f := to_file m s]> w.
Definition toy_load (w : gmap string File) (f : string) (_ : Z)
  : option (Z * @Snapshot types) :=
  of_file <$> w !! f.
Definition toy_exists (w : gmap string File) (f : string) : bool :=
  bool_decide (is_Some (w !! f)).

#[export] Instance model_ops : @ModelOps types :=
  @Build_ModelOps types same same same
    (fun _ => toy_loss 0) (toy_loss1 1) (toy_loss1 2)
    (toy_loss2 3) (toy_loss2 4)
    toy_predict toy_backward toy_save toy_load toy_exists.

Definition toy_Adam (_ _ : Z) : Z := 0.
Definition toy_zero_grad (_ m : Z) : Z := m.
Definition toy_step (o m : Z) : Z * Z := (o + 1, m + 1).
Definition toy_load_state_dict (_ o : Z) : Z := o.

#[export] Instance optimizer_ops : @OptimizerOps types :=
  @Build_OptimizerOps types toy_Adam toy_zero_grad toy_step same
    toy_load_state_dict.

Definition toy_new_metric (_ : Z) : Z := 0.
Definition toy_add (c : Z) (st : gmap string Z) : Z * gmap string Z :=
  (c + 1, st).
Definition toy_update_confmat (c _ _ : Z) : Z * Z := (c, 1).

#[export] Instance metric_ops : @MetricOps types :=
  @Build_MetricOps types toy_new_metric toy_add toy_update_confmat same.

Definition ToyLogger : Type := (string * list (string * Z))%type.
Definition toy_new_logger (_ _ : list string) (_ : string) : ToyLogger :=
  ("train", []).
Definition toy_set_mode (l : ToyLogger) (m : string) : ToyLogger :=
  (m, snd l).
Definition toy_log (l : ToyLogger) (_ : gmap string Z) (e : Z) : ToyLogger :=
  (fst l, snd l ++ [(fst l, e)]).
Definition toy_resume (l : ToyLogger) (d : list (string * Z)) : ToyLogger :=
  (fst l, d).
Definition toy_data (l : ToyLogger) : list (string * Z) := snd l.

#[export] Instance logger_ops : @LoggerOps types :=
  @Build_LoggerOps types toy_new_logger toy_set_mode toy_log toy_resume
    toy_data toy_data.

Definition batch : Z * Z := (7, 1).

Definition loader (n : nat) : @DataLoader types :=
  {| batches := repeat batch n; loader_batch_size := 1;
     dataset_nclasses := 2 |}.

(** The arguments of a run: the keyword defaults of the constructor
    for the factors and the store, and the given epoch budget, switch
    epoch, test cadence, visdom environment and overwrite flag. *)
Definition args (epochs switch_epoch cadence : Z) (env : option string)
    (mode : string) (overwrite : bool) : @Arguments types :=
  {| arg_model := 0;
     arg_traindataloader := loader 2;
     arg_validdataloader := loader 1;
     arg_epochs := epochs;
     arg_switch_epoch := switch_epoch;
     arg_learning_rate := 1;
     arg_earliness_factor := 7;
     arg_entropy_factor := 3;
     arg_store := "/tmp";
     arg_test_every_n_epochs := cadence;
     arg_visdomenv := env;
     arg_show_n_samples := 1;
     arg_loss_mode := mode;
     arg_overwrite := overwrite |}.

(** A fresh trainer on an empty store. *)
Definition fresh (epochs switch_epoch cadence : Z) (env : option string)
    (mode : string) : @Trainer types :=
  fst (__init__ (args epochs switch_epoch cadence env mode true) ∅).

Definition mode : string := "twophase_linear_loss".
Definition env : option string := Some "main".
Definition classification_slot : string := "/tmp/model_classification.pth".
Definition earliness_slot : string := "/tmp/model_earliness.pth".

(** A trainer whose two data sources yield no batch. *)
Definition starved : @Trainer types :=
  fst (__init__
         {| arg_model := 0;
            arg_traindataloader := loader 0;
            arg_validdataloader := loader 0;
            arg_epochs := 4;
            arg_switch_epoch := 2;
            arg_learning_rate := 1;
            arg_earliness_factor := 7;
            arg_entropy_factor := 3;
            arg_store := "/tmp";
            arg_test_every_n_epochs := 1;
            arg_visdomenv := env;
            arg_show_n_samples := 1;
            arg_loss_mode := mode;
            arg_overwrite := true |} ∅).

(** A second process: the constructor with [overwrite=False] on the
    store a finished run left behind. *)
Definition reopened (epochs switch_epoch cadence : Z) (env : option string)
    (left_by : @Trainer types) : @Trainer types :=
  fst (__init__ (args epochs switch_epoch cadence env mode false)
         (fs left_by)).

(** A trainer put at a given epoch. *)
Definition at_epoch (e epochs switch_epoch cadence : Z)
    (env : option string) : @Trainer types :=
  with_epoch e (fresh epochs switch_epoch cadence env mode).

End Toy.

(** ** Facts about the trace and the monad *)

Section Facts.
Context `{Ty : Types}.
Context `{!TensorOps, !ModelOps, !OptimizerOps, !MetricOps, !LoggerOps}.
Local Open Scope trainer_scope.

Lemma prints_app (l1 l2 : list event) :
  prints (l1 ++ l2) = prints l1 ++ prints l2.
Proof.
  induction l1 as [|ev l1 IH]; [reflexivity|].
  destruct ev; simpl; rewrite ?IH; reflexivity.
Qed.

Lemma saves_app (l1 l2 : list event) :
  saves (l1 ++ l2) = saves l1 ++ saves l2.
Proof.
  induction l1 as [|ev l1 IH]; [reflexivity|].
  destruct ev; simpl; rewrite ?IH; reflexivity.
Qed.

Lemma phase_log_app (l1 l2 : list event) :
  phase_log (l1 ++ l2) = phase_log l1 ++ phase_log l2.
Proof. apply List.filter_app. Qed.

Lemma prints_phase_log (l : list event) : prints (phase_log l) = prints l.
Proof.
  induction l as [|ev l IH]; [reflexivity|].
  destruct ev; simpl; rewrite ?IH; reflexivity.
Qed.

Lemma saves_phase_log (l : list event) : saves (phase_log l) = saves l.
Proof.
  induction l as [|ev l IH]; [reflexivity|].
  destruct ev; simpl; rewrite ?IH; reflexivity.
Qed.

(** *** Silent steps *)

Lemma silent_refl s : silent s s.
Proof.
  repeat split. exists []. split; [|reflexivity].
  symmetry. apply app_nil_r.
Qed.

Lemma silent_trans s1 s2 s3 : silent s1 s2 -> silent s2 s3 -> silent s1 s3.
Proof.
  intros (F1 & E1 & W1 & q1 & O1 & Q1) (F2 & E2 & W2 & q2 & O2 & Q2).
  repeat split; try congruence.
  exists (q1 ++ q2). split.
  - rewrite O2, O1. symmetry. apply app_assoc.
  - rewrite phase_log_app, Q1, Q2. reflexivity.
Qed.

Lemma silent_with_model m s : silent s (with_model m s).
Proof. apply (silent_refl s). Qed.

Lemma silent_with_optimizer o s : silent s (with_optimizer o s).
Proof. apply (silent_refl s). Qed.

Lemma silent_with_logger l s : silent s (with_logger l s).
Proof. apply (silent_refl s). Qed.

Lemma silent_quiet ev s :
  is_phase ev = false -> silent s (with_out (out s ++ [ev]) s).
Proof.
  intros Q. repeat split. exists [ev]. split; [reflexivity|].
  unfold phase_log. simpl. rewrite Q. reflexivity.
Qed.

Lemma Silent_ret {A} (a : A) : Silent (ret a).
Proof. intros s. apply silent_refl. Qed.

Lemma Silent_raise {A} e : Silent (@raise _ A e).
Proof. intros s. apply silent_refl. Qed.

Lemma Silent_get : Silent get.
Proof. intros s. apply silent_refl. Qed.

Lemma Silent_lift {A} (r : result A) : Silent (lift r).
Proof. intros s. apply silent_refl. Qed.

Lemma Silent_modify f : (forall s, silent s (f s)) -> Silent (modify f).
Proof. intros Hf s. apply Hf. Qed.

Lemma Silent_emit ev : is_phase ev = false -> Silent (emit ev).
Proof. intros Q s. apply silent_quiet, Q. Qed.

Lemma Silent_bind {A B} (m : M A) (k : A -> M B) :
  Silent m -> (forall a, Silent (k a)) -> Silent (bind m k).
Proof.
  intros Hm Hk s. unfold bind. specialize (Hm s).
  destruct (m s) as [s1 [a|e]]; simpl in *; [|exact Hm].
  eapply silent_trans; [exact Hm|apply Hk].
Qed.

Lemma Silent_for_each {A} (l : list A) (body : A -> M unit) :
  (forall a, Silent (body a)) -> Silent (for_each l body).
Proof.
  intros Hb. induction l as [|a l IH]; simpl.
  - apply Silent_ret.
  - apply Silent_bind; [apply Hb|intros _; exact IH].
Qed.
End Facts.

Create HintDb silent.
#[export] Hint Resolve silent_refl silent_with_model silent_with_optimizer
  silent_with_logger silent_quiet : silent.

(** Walk through a method body, one monadic step at a time. *)
Ltac silent_steps :=
  repeat match goal with
    | |- Silent (ret _) => apply Silent_ret
    | |- Silent (raise _) => apply Silent_raise
    | |- Silent get => apply Silent_get
    | |- Silent (lift _) => apply Silent_lift
    | |- Silent (emit _) => apply Silent_emit; reflexivity
    | |- Silent (modify _) =>
        apply Silent_modify; intros ?; solve [auto with silent]
    | |- Silent (bind _ _) => apply Silent_bind; [|intros ?]
    | |- Silent (match ?x with _ => _ end) => destruct x
    | |- Silent (let _ := _ in _) => progress cbv zeta
    end.

Section Loop.
Context `{Ty : Types}.
Context `{!TensorOps, !ModelOps, !OptimizerOps, !MetricOps, !LoggerOps}.
Local Open Scope trainer_scope.

Lemma Silent_subscript_stats (d : Stats) key : Silent (subscript_stats d key).
Proof. unfold subscript_stats. silent_steps. Qed.

Lemma Silent_get_visdom : Silent get_visdom.
Proof. unfold get_visdom. silent_steps. Qed.

Lemma Silent_shape0 a : Silent (shape0 a).
Proof. unfold shape0. silent_steps. Qed.

Lemma Silent_unpack_loss r : Silent (unpack_loss r).
Proof. unfold unpack_loss. silent_steps. Qed.

Lemma silent_step s :
  silent s
    (let (o, m) := step (optimizer s) (model s) in
     with_optimizer o (with_model m s)).
Proof. destruct (step (optimizer s) (model s)). apply (silent_refl s). Qed.

Lemma Silent_train_batch e metric batch : Silent (train_batch e metric batch).
Proof.
  unfold train_batch. silent_steps.
  - apply Silent_unpack_loss.
  - apply Silent_modify. apply silent_step.
Qed.

Lemma Silent_train_batches e l :
  forall metric acc, Silent (train_batches e metric acc l).
Proof.
  induction l as [|b l IH]; intros metric acc; simpl.
  - apply Silent_ret.
  - apply Silent_bind; [apply Silent_train_batch|].
    intros [m st]. apply IH.
Qed.

Lemma Silent_train_epoch e : Silent (train_epoch e).
Proof.
  unfold train_epoch. silent_steps. apply Silent_train_batches.
Qed.

Lemma Silent_test_batch e metric batch : Silent (test_batch e metric batch).
Proof. unfold test_batch. silent_steps. apply Silent_unpack_loss. Qed.

Lemma Silent_test_batches e l :
  forall metric acc, Silent (test_batches e metric acc l).
Proof.
  induction l as [|b l IH]; intros metric acc; simpl.
  - apply Silent_ret.
  - apply Silent_bind; [apply Silent_test_batch|].
    intros [m st]. apply IH.
Qed.

Lemma Silent_test_epoch e : Silent (test_epoch e).
Proof.
  unfold test_epoch. silent_steps. apply Silent_test_batches.
Qed.

Lemma Silent_test_step st : Silent (test_step st).
Proof.
  unfold test_step. silent_steps. apply Silent_test_epoch.
Qed.

Lemma Silent_report_sample st legend targets i :
  Silent (report_sample st legend targets i).
Proof.
  unfold report_sample. silent_steps;
    first [apply Silent_subscript_stats | apply Silent_get_visdom].
Qed.

Lemma Silent_report st : Silent (report st).
Proof.
  unfold report. silent_steps;
    first [ apply Silent_subscript_stats | apply Silent_get_visdom
          | apply Silent_shape0
          | apply Silent_for_each; intros; apply Silent_report_sample ].
Qed.

(** *** The phase events of one check *)

Lemma frozen_check_out s s' e :
  frozen s' = frozen s -> check_out s' e = check_out s e.
Proof.
  unfold frozen, check_out. intros F.
  replace (switch_epoch s') with (switch_epoch s) by congruence.
  replace (epochs s') with (epochs s) by congruence.
  replace (store s') with (store s) by congruence.
  reflexivity.
Qed.

Lemma phase_log_check_out s e : phase_log (check_out s e) = check_out s e.
Proof.
  unfold check_out.
  destruct (e =? 0); [reflexivity|].
  destruct (e =? switch_epoch s); [reflexivity|].
  destruct (e =? epochs s); reflexivity.
Qed.

Lemma check_events_out s :
  exists s',
    check_events s = (s', Ok tt) /\ frozen s' = frozen s /\
    epoch s' = epoch s /\ out s' = out s ++ check_out s (epoch s).
Proof.
  unfold check_events, check_out, bind, get.
  destruct (epoch s =? 0).
  { eexists. split; [reflexivity|]. repeat split. }
  destruct (epoch s =? switch_epoch s).
  { eexists. split; [reflexivity|]. repeat split.
    simpl. rewrite <- !app_assoc. reflexivity. }
  destruct (epoch s =? epochs s).
  { eexists. split; [reflexivity|]. repeat split.
    simpl. rewrite <- !app_assoc. reflexivity. }
  exists s. repeat split. symmetry. apply app_nil_r.
Qed.

Lemma new_epoch_out s :
  exists s',
    new_epoch s = (s', Ok tt) /\ frozen s' = frozen s /\
    epoch s' = epoch s + 1 /\ out s' = out s ++ check_out s (epoch s).
Proof.
  destruct (check_events_out s) as (s1 & E & F & Ep & O).
  unfold new_epoch, bind. rewrite E.
  eexists. split; [reflexivity|].
  simpl. rewrite Ep. repeat split; assumption.
Qed.

(** *** One iteration *)

Lemma bind_assoc {A B C} (m : M A) (k : A -> M B) (h : B -> M C) s :
  bind (bind m k) h s = bind m (fun a => bind (k a) h) s.
Proof.
  unfold bind. destruct (m s) as [s1 [a|e]]; reflexivity.
Qed.

Lemma Silent_after {A} (m : M unit) (k : M A) s s1 :
  m s = (s1, Ok tt) -> Silent k ->
  silent s1 (fst (bind m (fun _ => k) s)).
Proof. intros E Hk. unfold bind. rewrite E. apply Hk. Qed.

Lemma fit_iteration_out s :
  frozen (fst (fit_iteration s)) = frozen s /\
  epoch (fst (fit_iteration s)) = epoch s + 1 /\
  exists q,
    out (fst (fit_iteration s)) = out s ++ check_out s (epoch s) ++ q /\
    phase_log q = [].
Proof.
  destruct (new_epoch_out s) as (s1 & E & F & Ep & O).
  assert (S1 : silent s1 (fst (fit_iteration s))).
  { unfold fit_iteration, epoch_passes. rewrite bind_assoc.
    apply Silent_after; [exact E|].
    silent_steps;
      first [ apply Silent_train_epoch | apply Silent_test_step
            | apply Silent_report ]. }
  destruct S1 as (F1 & E1 & _ & q & O1 & Q1).
  repeat split; try congruence.
  exists q. split; [|exact Q1].
  rewrite O1, O. symmetry. apply app_assoc.
Qed.

(** *** The loop *)

Lemma fit_loop_S fuel s :
  fit_loop (S fuel) s =
    if epoch s <? epochs s then bind fit_iteration (fun _ => fit_loop fuel) s
    else (s, Ok tt).
Proof. simpl. unfold bind at 1, get. destruct (epoch s <? epochs s); reflexivity. Qed.

Lemma fit_loop_out fuel :
  forall s,
    frozen (fst (fit_loop fuel s)) = frozen s /\
    epoch s <= epoch (fst (fit_loop fuel s)) /\
    exists q,
      out (fst (fit_loop fuel s)) = out s ++ q /\
      phase_log q =
        List.flat_map (check_out s)
          (seqZ (epoch s) (epoch (fst (fit_loop fuel s)) - epoch s)).
Proof.
  induction fuel as [|fuel IH]; intros s.
  { simpl. split; [reflexivity|]. split; [lia|].
    exists []. split; [symmetry; apply app_nil_r|].
    rewrite Z.sub_diag. reflexivity. }
  rewrite fit_loop_S.
  destruct (epoch s <? epochs s).
  2:{ simpl. split; [reflexivity|]. split; [lia|].
      exists []. split; [symmetry; apply app_nil_r|].
      rewrite Z.sub_diag. reflexivity. }
  destruct (fit_iteration_out s) as (F & Ep & q & O & Q).
  unfold bind. destruct (fit_iteration s) as [s1 [[]|e]]; simpl in *.
  - destruct (IH s1) as (F2 & Ep2 & q2 & O2 & Q2).
    split; [congruence|]. split; [lia|].
    exists ((check_out s (epoch s) ++ q) ++ q2). split.
    + rewrite O2, O. rewrite <- !app_assoc. reflexivity.
    + rewrite !phase_log_app, Q, Q2, phase_log_check_out, app_nil_r.
      rewrite (seqZ_cons (epoch s)) by lia. simpl.
      f_equal. rewrite Ep.
      replace (Z.pred (epoch (fit_loop fuel s1).1 - epoch s))
        with (epoch (fit_loop fuel s1).1 - (epoch s + 1)) by lia.
      replace (Z.succ (epoch s)) with (epoch s + 1) by lia.
      clear -F. induction (seqZ _ _) as [|x l IHl]; [reflexivity|].
      simpl. rewrite IHl, (frozen_check_out _ _ _ F). reflexivity.
  - split; [assumption|]. split; [lia|].
    exists (check_out s (epoch s) ++ q). split; [assumption|].
    rewrite phase_log_app, Q, phase_log_check_out, app_nil_r.
    rewrite Ep. replace (epoch s + 1 - epoch s) with 1 by lia.
    rewrite seqZ_cons, seqZ_nil by lia.
    simpl. rewrite app_nil_r. reflexivity.
Qed.

(** A loop that returns has run up to the epoch budget, and a loop
    that raises has raised within it. *)
Lemma fit_loop_epoch fuel :
  forall s,
    (Z.to_nat (epochs s - epoch s) <= fuel)%nat ->
    match snd (fit_loop fuel s) with
    | Ok _ => epoch (fst (fit_loop fuel s)) = Z.max (epoch s) (epochs s)
    | Raised _ => epoch s < epoch (fst (fit_loop fuel s)) <= epochs s
    end.
Proof.
  induction fuel as [|fuel IH]; intros s Hf.
  { simpl. lia. }
  rewrite fit_loop_S.
  destruct (Z.ltb_spec (epoch s) (epochs s)) as [Hlt|Hge]; [|simpl; lia].
  destruct (fit_iteration_out s) as (F & Ep & _).
  unfold bind. destruct (fit_iteration s) as [s1 [[]|e]]; simpl in *.
  - assert (Es : epochs s1 = epochs s) by (unfold frozen in F; congruence).
    specialize (IH s1). rewrite Es, Ep in IH.
    destruct (snd (fit_loop fuel s1)); [rewrite IH; lia|].
    assert (Z.to_nat (epochs s - (epoch s + 1)) <= fuel)%nat by lia.
    lia.
  - lia.
Qed.

(** More fuel than [epochs - epoch] changes nothing. *)
Lemma fit_loop_fuel fuel :
  forall s,
    (Z.to_nat (epochs s - epoch s) <= fuel)%nat ->
    fit_loop fuel s = fit_loop (Z.to_nat (epochs s - epoch s)) s.
Proof.
  induction fuel as [|fuel IH]; intros s Hf.
  { replace (Z.to_nat (epochs s - epoch s)) with O by lia. reflexivity. }
  destruct (Z.ltb_spec (epoch s) (epochs s)) as [Hlt|Hge].
  - replace (Z.to_nat (epochs s - epoch s))
      with (S (Z.to_nat (epochs s - (epoch s + 1)))) by lia.
    rewrite !fit_loop_S.
    destruct (Z.ltb_spec (epoch s) (epochs s)); [|lia].
    destruct (fit_iteration_out s) as (F & Ep & _).
    unfold bind. destruct (fit_iteration s) as [s1 [[]|e]]; simpl in *;
      [|reflexivity].
    assert (Es : epochs s1 = epochs s) by (unfold frozen in F; congruence).
    rewrite IH by lia. rewrite Es, Ep. reflexivity.
  - replace (Z.to_nat (epochs s - epoch s)) with O by lia.
    rewrite fit_loop_S.
    destruct (Z.ltb_spec (epoch s) (epochs s)); [lia|reflexivity].
Qed.
End Loop.

Section Fit.
Context `{Ty : Types}.
Context `{!TensorOps, !ModelOps, !OptimizerOps, !MetricOps, !LoggerOps}.
Local Open Scope trainer_scope.

Lemma fit_eq s :
  fit s =
    match fit_loop (Z.to_nat (epochs s - epoch s)) s with
    | (s1, Ok _) =>
        match check_events s1 with
        | (s2, Ok _) => (s2, Ok (data (logger s2)))
        | (s2, Raised e) => (s2, Raised e)
        end
    | (s1, Raised e) => (s1, Raised e)
    end.
Proof. reflexivity. Qed.

Lemma fit_out s :
  frozen (fst (fit s)) = frozen s /\
  (exists q,
     out (fst (fit s)) = out s ++ q /\
     phase_log q = List.flat_map (check_out s) (checked s)) /\
  match snd (fit s) with
  | Ok d =>
      epoch (fst (fit s)) = Z.max (epoch s) (epochs s) /\
      d = data (logger (fst (fit s)))
  | Raised _ => epoch s < epoch (fst (fit s)) <= epochs s
  end.
Proof.
  unfold checked. rewrite fit_eq.
  pose proof (fit_loop_out (Z.to_nat (epochs s - epoch s)) s) as L.
  pose proof (fit_loop_epoch (Z.to_nat (epochs s - epoch s)) s
                (Nat.le_refl _)) as E.
  destruct (fit_loop _ s) as [s1 [[]|e]]; simpl in *.
  - destruct L as (F & _ & q & O & Q).
    destruct (check_events_out s1) as (s2 & C & F2 & Ep2 & O2).
    rewrite C. simpl.
    split; [congruence|]. split; [|split; [congruence|reflexivity]].
    exists (q ++ check_out s1 (epoch s1)). split.
    + rewrite O2, O. symmetry. apply app_assoc.
    + rewrite phase_log_app, Q, phase_log_check_out, Ep2.
      rewrite List.flat_map_app. simpl. rewrite app_nil_r.
      rewrite (frozen_check_out _ _ _ F). reflexivity.
  - destruct L as (F & _ & q & O & Q).
    split; [assumption|]. split; [|assumption].
    exists q. split; [assumption|]. rewrite app_nil_r. exact Q.
Qed.

(** Every epoch checked by a run is at or after its first epoch, and
    the first epoch is always checked. *)
Lemma checked_ge s e : In e (checked s) -> epoch s <= e.
Proof.
  unfold checked. rewrite in_app_iff.
  destruct (fit_out s) as (_ & _ & E).
  intros [Hin|Hin].
  - apply list_elem_of_In, elem_of_seqZ in Hin. lia.
  - destruct (snd (fit s)); simpl in Hin; [|contradiction].
    destruct Hin as [<-|[]]. lia.
Qed.

Lemma checked_head s :
  exists rest, checked s = epoch s :: rest /\
               forall e, In e rest -> epoch s < e.
Proof.
  unfold checked. destruct (fit_out s) as (_ & _ & E).
  destruct (Z.eq_dec (epoch (fst (fit s))) (epoch s)) as [Heq|Hne].
  - rewrite Heq, Z.sub_diag. simpl.
    destruct (snd (fit s)); simpl; [|lia].
    exists []. split; [reflexivity|]. intros e [].
  - assert (Hlt : epoch s < epoch (fst (fit s)))
      by (destruct (snd (fit s)); lia).
    rewrite seqZ_cons by lia. simpl. eexists. split; [reflexivity|].
    intros e. rewrite in_app_iff. intros [Hin|Hin].
    + apply list_elem_of_In, elem_of_seqZ in Hin. lia.
    + destruct (snd (fit s)); simpl in Hin; [|contradiction].
      destruct Hin as [<-|[]]. lia.
Qed.
End Fit.

(** ** Phases and loss dispatch *)

Section Dispatch.
Context `{Ty : Types}.
Context `{!TensorOps, !ModelOps, !OptimizerOps, !MetricOps, !LoggerOps}.
Local Open Scope trainer_scope.

(** C6. The phase is a function of the epoch counter and the switch
    epoch alone: [get_phase] answers "classification" when
    [epoch < switch_epoch] and "earliness" when [epoch >= switch_epoch],
    the two names differ, and two trainers that agree on [epoch] and
    [switch_epoch] are in the same phase.  [get_phase] is a function
    from the trainer to a name, so it changes no attribute, and the
    record [Trainer] has no attribute that holds a phase. *)
Theorem get_phase_threshold (s : Trainer) :
  (epoch s < switch_epoch s -> get_phase s = CLASSIFICATION_PHASE_NAME) /\
  (switch_epoch s <= epoch s -> get_phase s = EARLINESS_PHASE_NAME) /\
  (forall s' : Trainer,
      epoch s' = epoch s -> switch_epoch s' = switch_epoch s ->
      get_phase s' = get_phase s) /\
  CLASSIFICATION_PHASE_NAME <> EARLINESS_PHASE_NAME.
Proof.
  unfold get_phase. repeat split.
  - intros Hlt. destruct (Z.ltb_spec (epoch s) (switch_epoch s)); [reflexivity|lia].
  - intros Hge. destruct (Z.ltb_spec (epoch s) (switch_epoch s)); [lia|reflexivity].
  - intros s' -> ->. reflexivity.
  - discriminate.
Qed.

(** The two-phase branches never fall off the end of the method. *)
Lemma loss_criterion_returns s inputs targets e ef nf :
  loss_criterion s inputs targets e ef nf <> Ok None.
Proof.
  unfold loss_criterion, get_phase.
  destruct e as [e|]; [|discriminate].
  destruct (epoch s <? switch_epoch s); simpl;
    repeat match goal with
           | |- context [String.eqb (lossmode s) ?m] =>
               destruct (String.eqb (lossmode s) m)
           end; discriminate.
Qed.

(** C4. With [loss_mode="twophase_linear_loss"] and [switch_epoch=2],
    for a non-null epoch argument: at current epoch 1 the dispatch is
    the model's plain cross-entropy loss, and at current epoch 3 it is
    the model's [early_loss_linear] with [alpha] the earliness factor
    and [entropy_factor] the entropy factor it was called with;
    [train_epoch] and [test_epoch] call it with the configured
    [self.earliness_factor] and [self.entropy_factor]. *)
Theorem twophase_linear_dispatch (s : Trainer) (inputs targets : Tensor)
    (e : Z) (ef nf : Factor) :
  lossmode s = "twophase_linear_loss" -> switch_epoch s = 2 ->
  (epoch s = 1 ->
   loss_criterion s inputs targets (Some e) ef nf
   = Ok (Some (loss_cross_entropy (model s) inputs targets))) /\
  (epoch s = 3 ->
   loss_criterion s inputs targets (Some e) ef nf
   = Ok (Some (early_loss_linear (model s) inputs targets ef nf)) /\
   loss_criterion s inputs targets (Some e)
     (earliness_factor s) (entropy_factor s)
   = Ok (Some (early_loss_linear (model s) inputs targets
                 (earliness_factor s) (entropy_factor s)))).
Proof.
  intros Hmode Hsw. unfold loss_criterion, get_phase.
  rewrite Hmode, Hsw. simpl.
  split; intros ->; simpl; auto.
Qed.

(** C10. On a data source that yields no batch both passes raise: the
    local [stats] is bound only inside the batch loop, so [train_epoch]
    fails at [return stats] and [test_epoch] at its first use of
    [stats] after the loop.  Neither returns stats. *)
Theorem empty_datasource_fails (s : Trainer) (e : option Z) :
  (batches (traindataloader s) = [] ->
   snd (train_epoch e s) = Raised (UnboundLocalError "stats")) /\
  (batches (validdataloader s) = [] ->
   snd (test_epoch e s) = Raised (UnboundLocalError "stats")).
Proof.
  split; intros Hempty.
  - unfold train_epoch, bind, emit, modify, get. simpl.
    rewrite Hempty. reflexivity.
  - unfold test_epoch, bind, emit, modify, get. simpl.
    rewrite Hempty. reflexivity.
Qed.

Lemma not_accepted (m : string) :
  ~ In m accepted_loss_modes ->
  String.eqb m "early_reward" = false /\
  String.eqb m "loss_cross_entropy" = false /\
  String.eqb m "twophase_early_reward" = false /\
  String.eqb m "twophase_linear_loss" = false /\
  String.eqb m "twophase_cross_entropy" = false.
Proof.
  unfold accepted_loss_modes. simpl. intros Hn.
  repeat split; apply String.eqb_neq; intros ->; tauto.
Qed.

Lemma resume_eq filename s :
  resume filename s =
    match model_load (fs s) filename (model s) with
    | Some (m, snap) =>
        (with_logger
           (logger_resume (logger s) (snapshot_logged_data snap))
           (with_optimizer
              (load_state_dict (optimizer s)
                 (snapshot_optimizer_state_dict snap))
              (with_epoch (snapshot_epoch snap)
                 (with_model
                    (if cuda_is_available then model_cuda m else m) s))),
         Ok tt)
    | None => (s, Raised (LoadError filename))
    end.
Proof.
  unfold resume, bind, get.
  destruct (model_load (fs s) filename (model s)) as [[m snap]|];
    reflexivity.
Qed.

Lemma snapshot_eq filename s :
  snapshot filename s =
    (with_out (out s ++ [ModelSave filename (epoch s)])
       (with_fs
          (model_save (fs s) filename (model s)
             {| snapshot_optimizer_state_dict := state_dict (optimizer s);
                snapshot_epoch := epoch s;
                snapshot_logged_data := get_data (logger s) |}) s),
     Ok tt).
Proof. reflexivity. Qed.

(** The constructor raises nothing but what [model.load] raises. *)
Lemma init_raises a world e :
  snd (__init__ a world) = Raised e -> exists f, e = LoadError f.
Proof.
  unfold __init__. cbv zeta.
  match goal with |- context [if ?b then _ else _] => destruct b end;
    [|discriminate].
  unfold bind, emit, modify. rewrite resume_eq.
  match goal with |- context [model_load ?w ?f ?m] =>
    destruct (model_load w f m) as [[m1 snap]|] end;
    simpl; [discriminate|].
  intros [= <-]. eauto.
Qed.

Lemma init_lossmode a world :
  lossmode (fst (__init__ a world)) = arg_loss_mode a.
Proof.
  unfold __init__. cbv zeta.
  match goal with |- context [if ?b then _ else _] => destruct b end;
    [|reflexivity].
  unfold bind, emit, modify. rewrite resume_eq.
  match goal with |- context [model_load ?w ?f ?m] =>
    destruct (model_load w f m) as [[m1 snap]|] end; reflexivity.
Qed.

(** C2, as the code has it.  With a non-null epoch argument, a loss
    mode outside the accepted set makes [loss_criterion] raise
    [ValueError] for every inputs/targets pair, and no loss is
    returned.  With a null epoch argument the method returns the
    model's plain cross-entropy loss whatever the mode.  The
    constructor stores any mode string and never raises [ValueError]. *)
Theorem unknown_loss_mode_raises (s : Trainer) (inputs targets : Tensor)
    (e : Z) (ef nf : Factor) :
  ~ In (lossmode s) accepted_loss_modes ->
  loss_criterion s inputs targets (Some e) ef nf
  = Raised (ValueError wrong_loss_mode) /\
  loss_criterion s inputs targets None ef nf
  = Ok (Some (loss_cross_entropy (model s) inputs targets)) /\
  (forall a world,
      lossmode (fst (__init__ a world)) = arg_loss_mode a /\
      forall msg, snd (__init__ a world) <> Raised (ValueError msg)).
Proof.
  intros Hn. apply not_accepted in Hn as (E1 & E2 & E3 & E4 & E5).
  split; [|split; [reflexivity|]].
  - unfold loss_criterion. rewrite E1, E2, E3, E4, E5. reflexivity.
  - intros a world. split; [apply init_lossmode|].
    intros msg Hr. apply init_raises in Hr as [f Hf]. discriminate.
Qed.
End Dispatch.

(** ** Phase events and checkpoint writes of a run *)

Section Checkpoints.
Context `{Ty : Types}.
Context `{!TensorOps, !ModelOps, !OptimizerOps, !MetricOps, !LoggerOps}.
Local Open Scope trainer_scope.

Lemma flat_map_nil {A B} (f : A -> list B) (l : list A) :
  (forall x, In x l -> f x = []) -> List.flat_map f l = [].
Proof.
  induction l as [|x l IH]; intros Hf; [reflexivity|].
  simpl. rewrite (Hf x) by (left; reflexivity).
  apply IH. intros y Hy. apply Hf. right. exact Hy.
Qed.

Lemma saves_flat_map {A} (f : A -> list event) (l : list A) :
  saves (List.flat_map f l) = List.flat_map (fun x => saves (f x)) l.
Proof.
  induction l as [|x l IH]; [reflexivity|].
  simpl. rewrite saves_app, IH. reflexivity.
Qed.

Lemma prints_flat_map {A} (f : A -> list event) (l : list A) :
  prints (List.flat_map f l) = List.flat_map (fun x => prints (f x)) l.
Proof.
  induction l as [|x l IH]; [reflexivity|].
  simpl. rewrite prints_app, IH. reflexivity.
Qed.

Lemma In_seqZ (m n k : Z) : In k (seqZ m n) <-> m <= k < m + n.
Proof. rewrite <- list_elem_of_In. apply elem_of_seqZ. Qed.

Lemma seqZ_one (m : Z) : seqZ m 1 = [m].
Proof.
  rewrite seqZ_cons by lia. rewrite (seqZ_nil _ (Z.pred 1)) by lia.
  reflexivity.
Qed.

(** What a run adds to the trace, seen through [saves] and [prints]. *)
Lemma fit_saves s :
  exists q,
    out (fst (fit s)) = out s ++ q /\
    saves q = List.flat_map (fun e => saves (check_out s e)) (checked s) /\
    prints q = List.flat_map (fun e => prints (check_out s e)) (checked s).
Proof.
  destruct (fit_out s) as (_ & (q & O & Q) & _).
  exists q. split; [exact O|].
  rewrite <- saves_phase_log, <- prints_phase_log, Q.
  split; [apply saves_flat_map|apply prints_flat_map].
Qed.

Lemma saves_check_out s e :
  saves (check_out s e) =
    if e =? 0 then []
    else if e =? switch_epoch s then
      [(path_join (store s) "model_classification.pth", e)]
    else if e =? epochs s then
      [(path_join (store s) "model_earliness.pth", e)]
    else [].
Proof.
  unfold check_out.
  destruct (e =? 0); [reflexivity|].
  destruct (e =? switch_epoch s); [reflexivity|].
  destruct (e =? epochs s); reflexivity.
Qed.

(** The epochs checked by a run that returns. *)
Lemma checked_ok s d :
  snd (fit s) = Ok d ->
  checked s = seqZ (epoch s) (Z.max (epoch s) (epochs s) - epoch s + 1).
Proof.
  intros Hok. unfold checked.
  destruct (fit_out s) as (_ & _ & E). rewrite Hok in *. simpl.
  destruct E as [E _]. rewrite E.
  rewrite (seqZ_app (epoch s) (Z.max (epoch s) (epochs s) - epoch s) 1)
    by lia.
  rewrite seqZ_one. do 2 f_equal. lia.
Qed.

(** C1, as the code has it.  For a configuration with
    [0 < switch_epoch < epochs], a run of [fit] that starts at an epoch
    from 0 to [switch_epoch] and returns makes exactly two checkpoint
    writes, whatever the test cadence: first
    [model_classification.pth], saved at [epoch == switch_epoch], then
    [model_earliness.pth], saved at [epoch == epochs]. *)
Theorem checkpoint_writes (s s' : Trainer) (d : LoggedData) :
  0 < switch_epoch s < epochs s ->
  0 <= epoch s <= switch_epoch s ->
  fit s = (s', Ok d) ->
  exists q,
    out s' = out s ++ q /\
    saves q =
      [(path_join (store s) "model_classification.pth", switch_epoch s);
       (path_join (store s) "model_earliness.pth", epochs s)].
Proof.
  intros Hsw He Hfit.
  destruct (fit_saves s) as (q & O & Sv & _).
  rewrite (checked_ok s d) in Sv by (rewrite Hfit; reflexivity).
  rewrite Hfit in O. simpl in O.
  exists q. split; [exact O|]. rewrite Sv.
  replace (Z.max (epoch s) (epochs s) - epoch s + 1)
    with ((switch_epoch s - epoch s) + (1 + ((epochs s - switch_epoch s - 1) + 1)))
    by lia.
  rewrite (seqZ_app (epoch s) (switch_epoch s - epoch s)) by lia.
  rewrite (seqZ_app (epoch s + (switch_epoch s - epoch s)) 1) by lia.
  rewrite (seqZ_app (epoch s + (switch_epoch s - epoch s) + 1)
             (epochs s - switch_epoch s - 1) 1) by lia.
  rewrite !List.flat_map_app.
  replace (epoch s + (switch_epoch s - epoch s)) with (switch_epoch s) by lia.
  replace (switch_epoch s + 1 + (epochs s - switch_epoch s - 1))
    with (epochs s) by lia.
  rewrite (flat_map_nil _ (seqZ (epoch s) _)).
  2:{ intros e Hin. apply In_seqZ in Hin. rewrite saves_check_out.
      destruct (Z.eqb_spec e 0); [reflexivity|].
      destruct (Z.eqb_spec e (switch_epoch s)); [lia|].
      destruct (Z.eqb_spec e (epochs s)); [lia|reflexivity]. }
  rewrite (flat_map_nil _ (seqZ (switch_epoch s + 1) _)).
  2:{ intros e Hin. apply In_seqZ in Hin. rewrite saves_check_out.
      destruct (Z.eqb_spec e 0); [reflexivity|].
      destruct (Z.eqb_spec e (switch_epoch s)); [lia|].
      destruct (Z.eqb_spec e (epochs s)); [lia|reflexivity]. }
  rewrite !seqZ_one. simpl.
  rewrite !saves_check_out.
  destruct (Z.eqb_spec (switch_epoch s) 0); [lia|].
  rewrite Z.eqb_refl.
  destruct (Z.eqb_spec (epochs s) 0); [lia|].
  destruct (Z.eqb_spec (epochs s) (switch_epoch s)); [lia|].
  rewrite Z.eqb_refl. reflexivity.
Qed.
End Checkpoints.

(** ** Snapshot, resume and the events of a continued run *)

Section Resume.
Context `{Ty : Types}.
Context `{!TensorOps, !ModelOps, !OptimizerOps, !MetricOps, !LoggerOps}.
Local Open Scope trainer_scope.

Lemma fired_app ev (l1 l2 : list event) :
  fired ev (l1 ++ l2) = (fired ev l1 + fired ev l2)%nat.
Proof. unfold fired. rewrite prints_app. apply count_occ_app. Qed.

Lemma fired_phase_log ev (l : list event) :
  fired ev (phase_log l) = fired ev l.
Proof. unfold fired. rewrite prints_phase_log. reflexivity. Qed.

Lemma writes_app f (l1 l2 : list event) :
  writes f (l1 ++ l2) = writes f l1 ++ writes f l2.
Proof.
  unfold writes. rewrite saves_app, List.filter_app, List.map_app.
  reflexivity.
Qed.

Lemma writes_phase_log f (l : list event) :
  writes f (phase_log l) = writes f l.
Proof. unfold writes. rewrite saves_phase_log. reflexivity. Qed.

(** The events of a run, counted. *)
Lemma fit_fired ev s :
  fired ev (out (fst (fit s))) =
    (fired ev (out s)
     + fired ev (List.flat_map (check_out s) (checked s)))%nat.
Proof.
  destruct (fit_out s) as (_ & (q & O & Q) & _).
  rewrite O, fired_app, <- (fired_phase_log ev q), Q. reflexivity.
Qed.

Lemma fit_writes f s :
  writes f (out (fst (fit s))) =
    writes f (out s) ++ writes f (List.flat_map (check_out s) (checked s)).
Proof.
  destruct (fit_out s) as (_ & (q & O & Q) & _).
  rewrite O, writes_app, <- (writes_phase_log f q), Q. reflexivity.
Qed.

Lemma fired_flat_map_0 {A} ev (f : A -> list event) (l : list A) :
  (forall x, In x l -> fired ev (f x) = O) ->
  fired ev (List.flat_map f l) = O.
Proof.
  induction l as [|x l IH]; intros Hf; [reflexivity|].
  simpl. rewrite fired_app, (Hf x) by (left; reflexivity).
  apply IH. intros y Hy. apply Hf. right. exact Hy.
Qed.

Lemma writes_flat_map_nil {A} name (f : A -> list event) (l : list A) :
  (forall x, In x l -> writes name (f x) = []) ->
  writes name (List.flat_map f l) = [].
Proof.
  induction l as [|x l IH]; intros Hf; [reflexivity|].
  simpl. rewrite writes_app, (Hf x) by (left; reflexivity).
  apply IH. intros y Hy. apply Hf. right. exact Hy.
Qed.

(** What one check fires, event by event. *)
Lemma fired_check_out s e :
  fired StartingClassification (check_out s e)
  = (if e =? 0 then 1%nat else 0%nat) /\
  fired EndingClassification (check_out s e)
  = (if negb (e =? 0) && (e =? switch_epoch s) then 1%nat else 0%nat) /\
  fired StartingEarliness (check_out s e)
  = (if negb (e =? 0) && (e =? switch_epoch s) then 1%nat else 0%nat).
Proof.
  unfold check_out.
  destruct (e =? 0); [repeat split|].
  destruct (e =? switch_epoch s); [repeat split|].
  destruct (e =? epochs s); repeat split.
Qed.

Lemma slots_differ dir :
  String.eqb (path_join dir "model_earliness.pth")
             (path_join dir "model_classification.pth") = false.
Proof.
  apply String.eqb_neq. unfold path_join.
  destruct (String.eqb dir ""); [discriminate|].
  destruct (String.eqb _ "/"); intros Heq.
  - apply (inj (String.app dir)) in Heq. discriminate.
  - apply (inj (String.app dir)) in Heq. discriminate.
Qed.

Lemma writes_check_out s e :
  writes (get_classification_model_name s) (check_out s e)
  = if negb (e =? 0) && (e =? switch_epoch s) then [e] else [].
Proof.
  unfold writes. rewrite saves_check_out.
  change (get_classification_model_name s)
    with (path_join (store s) "model_classification.pth").
  destruct (e =? 0); [reflexivity|].
  destruct (e =? switch_epoch s).
  { simpl. rewrite String.eqb_refl. reflexivity. }
  destruct (e =? epochs s); [|reflexivity].
  simpl. rewrite slots_differ. reflexivity.
Qed.

(** A run that starts at epoch 1 or later does not fire
    StartingClassification. *)
Lemma fit_no_starting_classification s :
  1 <= epoch s ->
  fired StartingClassification (out (fst (fit s)))
  = fired StartingClassification (out s).
Proof.
  intros He. rewrite fit_fired, fired_flat_map_0; [lia|].
  intros e Hin. apply checked_ge in Hin.
  destruct (fired_check_out s e) as (-> & _).
  destruct (Z.eqb_spec e 0); [lia|reflexivity].
Qed.

(** A run that starts at the switch epoch or later fires
    EndingClassification and StartingEarliness, and writes the
    classification slot, once if it starts at the switch epoch and
    never if it starts later. *)
Lemma fit_ending_classification s :
  epoch s <> 0 -> switch_epoch s <= epoch s ->
  let again := epoch s =? switch_epoch s in
  fired EndingClassification (out (fst (fit s)))
  = (fired EndingClassification (out s) + if again then 1 else 0)%nat /\
  fired StartingEarliness (out (fst (fit s)))
  = (fired StartingEarliness (out s) + if again then 1 else 0)%nat /\
  writes (get_classification_model_name s) (out (fst (fit s)))
  = writes (get_classification_model_name s) (out s)
    ++ if again then [switch_epoch s] else [].
Proof.
  intros Hz Hsw again.
  destruct (checked_head s) as (rest & Hc & Hrest).
  rewrite !fit_fired, fit_writes, Hc. simpl.
  rewrite !fired_app, writes_app.
  rewrite !fired_flat_map_0, writes_flat_map_nil.
  - destruct (fired_check_out s (epoch s)) as (_ & -> & ->).
    rewrite writes_check_out. subst again.
    destruct (Z.eqb_spec (epoch s) 0); [contradiction|]. simpl.
    destruct (Z.eqb_spec (epoch s) (switch_epoch s)) as [->|];
      rewrite ?Nat.add_0_r, ?app_nil_r; auto.
  - intros e Hin. apply Hrest in Hin. rewrite writes_check_out.
    destruct (Z.eqb_spec e (switch_epoch s)); [lia|].
    rewrite andb_false_r. reflexivity.
  - intros e Hin. apply Hrest in Hin.
    destruct (fired_check_out s e) as (_ & _ & ->).
    destruct (Z.eqb_spec e (switch_epoch s)); [lia|].
    rewrite andb_false_r. reflexivity.
  - intros e Hin. apply Hrest in Hin.
    destruct (fired_check_out s e) as (_ & -> & _).
    destruct (Z.eqb_spec e (switch_epoch s)); [lia|].
    rewrite andb_false_r. reflexivity.
Qed.

(** [resume] after [snapshot]: what the checkpoint restores. *)
Lemma resume_after_snapshot (s0 s : Trainer) filename :
  faithful_storage ->
  fs s = fs (fst (snapshot filename s0)) ->
  exists m,
    resume filename s =
      (with_logger (logger_resume (logger s) (get_data (logger s0)))
         (with_optimizer
            (load_state_dict (optimizer s) (state_dict (optimizer s0)))
            (with_epoch (epoch s0) (with_model m s))),
       Ok tt).
Proof.
  intros Hst Hfs. rewrite resume_eq, Hfs, snapshot_eq. simpl.
  destruct (Hst (fs s0) filename (model s0)
              {| snapshot_optimizer_state_dict := state_dict (optimizer s0);
                 snapshot_epoch := epoch s0;
                 snapshot_logged_data := get_data (logger s0) |}
              (model s)) as [m' ->].
  eexists. reflexivity.
Qed.
End Resume.

Section ResumeTheorems.
Context `{Ty : Types}.
Context `{!TensorOps, !ModelOps, !OptimizerOps, !MetricOps, !LoggerOps}.
Local Open Scope trainer_scope.


End ResumeTheorems.

(** ** The report step and the stats it reads *)

Section Report.
Context `{Ty : Types}.
Context `{!TensorOps, !ModelOps, !OptimizerOps, !MetricOps, !LoggerOps}.
Local Open Scope trainer_scope.

Lemma get_visdom_eq s :
  get_visdom s =
    match visdom s with
    | Some v => (s, Ok v)
    | None => (s, Raised (AttributeError "visdom"))
    end.
Proof. unfold get_visdom, bind, get. destruct (visdom s); reflexivity. Qed.

Lemma report_no_visdom (st : Stats) s :
  visdom s = None -> report st s = (s, Raised (AttributeError "visdom")).
Proof.
  intros Hv. unfold report. unfold bind at 1.
  rewrite get_visdom_eq, Hv. reflexivity.
Qed.

Lemma report_no_key (st : Stats) s :
  visdom s <> None -> st !! "confusion_matrix" = None ->
  report st s = (s, Raised (KeyError "confusion_matrix")).
Proof.
  intros Hv Hk. unfold report. unfold bind at 1.
  rewrite get_visdom_eq. destruct (visdom s) as [v|]; [|contradiction].
  unfold bind at 1. unfold subscript_stats. rewrite Hk. reflexivity.
Qed.

Lemma loss_criterion_stats key s inputs targets e ef nf lo :
  keyless_losses key ->
  loss_criterion s inputs targets e ef nf = Ok (Some lo) ->
  stats lo !! key = None.
Proof.
  intros Hk.
  destruct (Hk (model s) inputs targets ef nf) as (K1 & K2 & K3 & K4 & K5).
  unfold loss_criterion.
  destruct e as [e|]; [|intros [= <-]; exact K1].
  repeat match goal with
         | |- context [if ?b then _ else _] => destruct b
         end;
    intros [= <-]; assumption.
Qed.

(** The keys of the stats a train pass returns are "accuracy" and the
    keys of the stats folded by the metric accumulator. *)
Lemma train_batch_stats key e metric batch s s' metric' (st : Stats) :
  key <> "accuracy" -> keyless_losses key -> keyless_folding key ->
  train_batch e metric batch s = (s', Ok (metric', st)) ->
  st !! key = None.
Proof.
  intros Hkey Hloss Hfold.
  unfold train_batch, bind, modify, get, lift. simpl.
  match goal with |- context [loss_criterion ?a ?b ?c ?d ?f ?g] =>
    destruct (loss_criterion a b c d f g) as [[lo|]|ex] eqn:Hl end;
    simpl; try discriminate.
  apply loss_criterion_stats with (key := key) in Hl; [|assumption].
  specialize (Hfold metric (stats lo) Hl).
  destruct (metric_add metric (stats lo)) as [metric1 folded].
  match goal with |- context [update_confmat ?a ?b ?c] =>
    destruct (update_confmat a b c) as [metric2 accuracy] end.
  simpl in *. intros [= _ _ <-].
  rewrite lookup_insert_ne by congruence. exact Hfold.
Qed.

Lemma train_batches_stats key e l :
  key <> "accuracy" -> keyless_losses key -> keyless_folding key ->
  forall metric acc s s' (st : Stats),
    (forall a, acc = Some a -> a !! key = None) ->
    train_batches e metric acc l s = (s', Ok (Some st)) ->
    st !! key = None.
Proof.
  intros Hkey Hloss Hfold.
  induction l as [|b l IH]; intros metric acc s s' st Hacc; simpl.
  - intros [= _ ->]. apply Hacc. reflexivity.
  - unfold bind.
    destruct (train_batch e metric b s) as [s1 [[m1 st1]|ex]] eqn:Hb;
      [|discriminate].
    apply IH. intros a [= <-].
    eapply train_batch_stats; eassumption.
Qed.

Lemma keyless_train_stats key :
  key <> "accuracy" -> keyless_losses key -> keyless_folding key ->
  train_stats_without key.
Proof.
  intros Hkey Hloss Hfold e s s' st.
  unfold train_epoch, bind, emit, modify, get. simpl.
  match goal with |- context [train_batches ?a ?b ?c ?d ?f] =>
    destruct (train_batches a b c d f) as [s1 [[st1|]|ex]] eqn:Hb end;
    try discriminate.
  intros [= _ <-].
  eapply train_batches_stats; try eassumption. discriminate.
Qed.

(** When the test pass is not due, [test_step] hands the stats of the
    train pass on, or raises on a zero cadence. *)
Lemma test_step_not_due (st : Stats) s :
  ~ test_due s (epoch s) ->
  test_step st s =
    if test_every_n_epochs s =? 0 then (s, Raised ZeroDivisionError)
    else (s, Ok st).
Proof.
  intros Hnd. unfold test_step, bind at 1, get.
  destruct (Z.eqb_spec (test_every_n_epochs s) 0); [reflexivity|].
  destruct (Z.eqb_spec (epoch s mod test_every_n_epochs s) 0);
    [|reflexivity].
  exfalso. apply Hnd. split; assumption.
Qed.

Lemma test_due_dec s e : {test_due s e} + {~ test_due s e}.
Proof.
  unfold test_due.
  destruct (Z.eq_dec (test_every_n_epochs s) 0); [right; tauto|].
  destruct (Z.eq_dec (e mod test_every_n_epochs s) 0);
    [left; tauto|right; tauto].
Qed.

Lemma frozen_test_due s s' e :
  frozen s' = frozen s -> test_due s' e <-> test_due s e.
Proof.
  unfold frozen, test_due. intros F.
  replace (test_every_n_epochs s') with (test_every_n_epochs s)
    by congruence.
  reflexivity.
Qed.

(** The state in which the passes of an iteration end. *)
Lemma epoch_passes_state s :
  frozen (fst (epoch_passes s)) = frozen s /\
  epoch (fst (epoch_passes s)) = epoch s + 1.
Proof.
  destruct (new_epoch_out s) as (s1 & E & F & Ep & _).
  assert (S1 : silent s1 (fst (epoch_passes s))).
  { unfold epoch_passes. apply Silent_after; [exact E|].
    silent_steps;
      first [apply Silent_train_epoch | apply Silent_test_step]. }
  destruct S1 as (F1 & E1 & _). split; congruence.
Qed.

(** The stats an iteration reports on, when no test pass is due, are
    those of the train pass. *)
Lemma epoch_passes_stats key s s' (st : Stats) :
  train_stats_without key ->
  ~ test_due s (epoch s + 1) ->
  epoch_passes s = (s', Ok st) -> st !! key = None.
Proof.
  intros Hfold Hnd.
  destruct (new_epoch_out s) as (s1 & E & F & Ep & _).
  unfold epoch_passes. unfold bind at 1. rewrite E.
  unfold bind at 1, modify at 1. unfold bind at 1, get at 1.
  unfold bind at 1.
  match goal with |- context [train_epoch ?a ?b] =>
    pose proof (Silent_train_epoch a b) as St;
    destruct (train_epoch a b) as [s2 [st0|ex]] eqn:Ht end;
    [|discriminate].
  apply Hfold in Ht.
  unfold bind at 1, emit, modify.
  destruct St as (F2 & E2 & _). simpl in F2, E2.
  rewrite test_step_not_due.
  - destruct (_ =? 0); [discriminate|]. intros [= _ <-]. exact Ht.
  - simpl. intros Hd. apply Hnd.
    rewrite <- Ep, <- E2.
    apply (frozen_test_due s) in Hd; [exact Hd|].
    change (frozen s2 = frozen s). rewrite F2. exact F.
Qed.
End Report.

Section ReportTheorems.
Context `{Ty : Types}.
Context `{!TensorOps, !ModelOps, !OptimizerOps, !MetricOps, !LoggerOps}.
Local Open Scope trainer_scope.

Lemma fit_iteration_eq s :
  fit_iteration s =
    match epoch_passes s with
    | (s1, Ok st) => report st s1
    | (s1, Raised e) => (s1, Raised e)
    end.
Proof. reflexivity. Qed.

(** An iteration that raises ends the run. *)
Lemma fit_first_raise s s1 e :
  epoch s < epochs s -> fit_iteration s = (s1, Raised e) ->
  fit s = (s1, Raised e).
Proof.
  intros Hlt Hit. rewrite fit_eq.
  replace (Z.to_nat (epochs s - epoch s))
    with (S (Z.to_nat (epochs s - epoch s - 1))) by lia.
  rewrite fit_loop_S.
  destruct (Z.ltb_spec (epoch s) (epochs s)); [|lia].
  unfold bind. rewrite Hit. reflexivity.
Qed.

(** Every iteration of a loop that returns has returned. *)
Lemma fit_loop_ok (P : Z -> Prop) s0 :
  (forall s1, frozen s1 = frozen s0 ->
              snd (fit_iteration s1) = Ok tt -> P (epoch s1 + 1)) ->
  forall fuel s,
    frozen s = frozen s0 ->
    snd (fit_loop fuel s) = Ok tt ->
    forall e, epoch s < e <= epoch (fst (fit_loop fuel s)) -> P e.
Proof.
  intros Hstep. induction fuel as [|fuel IH]; intros s F.
  { simpl. intros _ e He. lia. }
  rewrite fit_loop_S.
  destruct (epoch s <? epochs s); [|simpl; intros _ e He; lia].
  destruct (fit_iteration_out s) as (F1 & Ep & _).
  pose proof (Hstep s F) as Hs.
  unfold bind. destruct (fit_iteration s) as [s1 [[]|ex]]; simpl in *;
    [|discriminate].
  intros Hok e He.
  destruct (Z.eq_dec e (epoch s + 1)) as [->|Hne]; [auto|].
  apply (IH s1); [congruence|assumption|lia].
Qed.

Lemma fit_ok_loop s s' d :
  fit s = (s', Ok d) ->
  snd (fit_loop (Z.to_nat (epochs s - epoch s)) s) = Ok tt /\
  epoch (fst (fit_loop (Z.to_nat (epochs s - epoch s)) s))
  = Z.max (epoch s) (epochs s).
Proof.
  rewrite fit_eq.
  pose proof (fit_loop_epoch (Z.to_nat (epochs s - epoch s)) s
                (Nat.le_refl _)) as E.
  destruct (fit_loop _ s) as [s1 [[]|ex]]; simpl in *; [|discriminate].
  intros _. split; [reflexivity|exact E].
Qed.

(** An iteration in which no test pass is due raises, when the stats
    of a train pass lack "confusion_matrix". *)
Lemma fit_iteration_not_due s :
  train_stats_without "confusion_matrix" ->
  ~ test_due s (epoch s + 1) ->
  exists e, snd (fit_iteration s) = Raised e /\
    (forall s1 st, epoch_passes s = (s1, Ok st) ->
       e = match visdom s with
           | Some _ => KeyError "confusion_matrix"
           | None => AttributeError "visdom"
           end).
Proof.
  intros Hfold Hnd. rewrite fit_iteration_eq.
  destruct (epoch_passes_state s) as (F & _).
  destruct (epoch_passes s) as [s1 [st|ex]] eqn:Hp; simpl in F.
  - assert (Hv : visdom s1 = visdom s) by (unfold frozen in F; congruence).
    apply epoch_passes_stats with (key := "confusion_matrix") in Hp;
      [|assumption|assumption].
    destruct (visdom s) as [v|] eqn:Hvs.
    + rewrite report_no_key by (assumption || congruence).
      eexists. split; [reflexivity|]. intros. reflexivity.
    + rewrite report_no_visdom by assumption.
      eexists. split; [reflexivity|]. intros. reflexivity.
  - exists ex. split; [reflexivity|]. intros s2 st [=].
Qed.

(** A run whose first epoch has no test pass due stops in that epoch,
    whatever the collaborators, as long as the stats of a train pass
    lack "confusion_matrix". *)
Lemma fit_stops_at_untested_epoch s :
  train_stats_without "confusion_matrix" ->
  epoch s < epochs s -> ~ test_due s (epoch s + 1) ->
  exists e, snd (fit s) = Raised e /\ epoch (fst (fit s)) = epoch s + 1.
Proof.
  intros Hst Hlt Hnd.
  destruct (fit_iteration_not_due s Hst Hnd) as (e & Hr & _).
  destruct (fit_iteration_out s) as (_ & Ep & _).
  destruct (fit_iteration s) as [s1 r] eqn:Hit. simpl in Hr, Ep. subst r.
  rewrite (fit_first_raise s s1 e Hlt Hit). simpl. eauto.
Qed.


(** C9, as the code has it.  With the attribute [visdom] absent and
    at least one epoch left to run, [fit] raises during the first
    epoch it runs and never returns; when the passes of that epoch
    complete, it raises [AttributeError] at the report step. *)
Theorem fit_without_visdom (s : Trainer) :
  visdom s = None -> epoch s < epochs s ->
  (exists e, snd (fit s) = Raised e) /\
  epoch (fst (fit s)) = epoch s + 1 /\
  (forall s1 st,
      epoch_passes s = (s1, Ok st) ->
      fit s = (s1, Raised (AttributeError "visdom"))).
Proof.
  intros Hv Hlt.
  destruct (epoch_passes_state s) as (F & Ep).
  pose proof (fit_iteration_eq s) as Hit.
  destruct (epoch_passes s) as [s1 [st|ex]] eqn:Hp; simpl in F, Ep.
  - assert (Hv1 : visdom s1 = None) by (unfold frozen in F; congruence).
    rewrite report_no_visdom in Hit by assumption.
    apply fit_first_raise in Hit; [|assumption].
    rewrite Hit. simpl. split; [eauto|]. split; [assumption|].
    intros s2 st2 [= <- _]. reflexivity.
  - apply fit_first_raise in Hit; [|assumption].
    rewrite Hit. simpl. split; [eauto|]. split; [assumption|].
    intros s2 st2 [=].
Qed.
End ReportTheorems.

(** ** Runs on the small implementation *)

Section Runs.
Import Toy.

Lemma toy_faithful_storage : @faithful_storage types model_ops.
Proof.
  intros world filename m snap m0. exists m.
  simpl. unfold toy_load, toy_save. rewrite lookup_insert_eq.
  destruct snap. reflexivity.
Qed.

Lemma toy_faithful_optimizer : @faithful_optimizer types optimizer_ops.
Proof. intros o st. reflexivity. Qed.

Lemma toy_faithful_logger : @faithful_logger types logger_ops.
Proof. intros l d. reflexivity. Qed.

Lemma toy_train_stats_without :
  @train_stats_without types tensor_ops model_ops optimizer_ops metric_ops
    "confusion_matrix".
Proof.
  apply keyless_train_stats.
  - discriminate.
  - intros m i t a b. repeat split; reflexivity.
  - intros metric st Hst. exact Hst.
Qed.

(** The message of the [ValueError] quotes four of the five accepted
    modes: 'loss_cross_entropy' is not in it. *)
Example wrong_loss_mode_quotes :
  map (fun m => bool_decide
                  (is_Some (String.index 0 ("'" +:+ m +:+ "'")
                              (@wrong_loss_mode))))
      accepted_loss_modes
  = [true; false; true; true; true].
Proof. vm_compute. reflexivity. Qed.

(** Scenario of the spec: [epochs=4], [switch_epoch=2], a test pass at
    every epoch. *)
Example fit_4_2 :
  let r := fit (fresh 4 2 1 env mode) in
  snd r = Ok [("test", 1); ("test", 2); ("test", 3); ("test", 4)] /\
  prints (out (fst r))
  = [notification StartingClassification;
     notification EndingClassification;
     notification StartingEarliness;
     notification EndingEarliness] /\
  saves (out (fst r)) = [(classification_slot, 2); (earliness_slot, 4)].
Proof. vm_compute. repeat split. Qed.

(** *** C6 *)

Lemma get_phase_threshold_witness :
  get_phase (at_epoch 1 4 2 1 env) = "classification" /\
  get_phase (at_epoch 3 4 2 1 env) = "earliness".
Proof.
  split.
  - apply (proj1 (get_phase_threshold (at_epoch 1 4 2 1 env))).
    vm_compute. reflexivity.
  - apply (proj1 (proj2 (get_phase_threshold (at_epoch 3 4 2 1 env)))).
    vm_compute. discriminate.
Defined.

(** *** C4 *)

Lemma twophase_linear_dispatch_witness :
  loss_criterion (at_epoch 1 4 2 1 env) 7 1 (Some 1) 7 3
  = Ok (Some (toy_loss 0 7 1)) /\
  loss_criterion (at_epoch 3 4 2 1 env) 7 1 (Some 3) 7 3
  = Ok (Some (toy_loss 3 7 1)).
Proof.
  split.
  - exact (proj1 (twophase_linear_dispatch (at_epoch 1 4 2 1 env)
                    7 1 1 7 3 eq_refl eq_refl) eq_refl).
  - exact (proj1 (proj2 (twophase_linear_dispatch (at_epoch 3 4 2 1 env)
                           7 1 3 7 3 eq_refl eq_refl) eq_refl)).
Defined.

(** *** C10 *)

Lemma empty_datasource_fails_witness :
  snd (train_epoch (Some 1) starved) = Raised (UnboundLocalError "stats") /\
  snd (test_epoch (Some 1) starved) = Raised (UnboundLocalError "stats").
Proof.
  split.
  - apply (proj1 (empty_datasource_fails starved (Some 1))). reflexivity.
  - apply (proj2 (empty_datasource_fails starved (Some 1))). reflexivity.
Defined.

(** *** C2 *)

(** With a null epoch argument the unknown mode "sgd" is not looked
    at: the dispatch returns the cross-entropy loss. *)
Lemma sgd_not_accepted : ~ In "sgd" (@accepted_loss_modes).
Proof.
  unfold accepted_loss_modes. simpl. intros H.
  repeat destruct H as [H|H]; try discriminate H. exact H.
Defined.

Lemma unknown_loss_mode_null_epoch :
  ~ In "sgd" (@accepted_loss_modes) /\
  loss_criterion (fresh 4 2 1 env "sgd") 7 1 None 7 3
  = Ok (Some (toy_loss 0 7 1)).
Proof. split; [exact sgd_not_accepted|reflexivity]. Qed.

Lemma unknown_loss_mode_raises_witness :
  loss_criterion (fresh 4 2 1 env "sgd") 7 1 (Some 1) 7 3
  = Raised (ValueError wrong_loss_mode).
Proof.
  apply (unknown_loss_mode_raises (fresh 4 2 1 env "sgd") 7 1 1 7 3).
  exact sgd_not_accepted.
Defined.

(** *** C1 *)

(** At the two ends of [switch_epoch <= epochs] a slot stays unwritten
    in a run that returns: with [switch_epoch = 0] nothing is saved as
    [model_classification.pth], and with [switch_epoch = epochs]
    nothing is saved as [model_earliness.pth]. *)
Lemma checkpoint_writes_at_the_ends :
  (let s := fresh 2 0 1 env mode in
   switch_epoch s <= epochs s /\ epoch s = 0 /\
   is_ok (snd (fit s)) = true /\
   writes classification_slot (out (fst (fit s))) = [] /\
   writes earliness_slot (out (fst (fit s))) = [2]) /\
  (let s := fresh 2 2 1 env mode in
   switch_epoch s <= epochs s /\ epoch s = 0 /\
   is_ok (snd (fit s)) = true /\
   writes classification_slot (out (fst (fit s))) = [2] /\
   writes earliness_slot (out (fst (fit s))) = []).
Proof.
  split; cbv zeta; (split; [vm_compute; discriminate|]);
    vm_compute; repeat split.
Qed.

Lemma checkpoint_writes_witness :
  exists q,
    out (fst (fit (fresh 4 2 1 env mode))) = out (fresh 4 2 1 env mode) ++ q /\
    saves q = [(classification_slot, 2); (earliness_slot, 4)].
Proof.
  apply (checkpoint_writes (fresh 4 2 1 env mode)
           (fst (fit (fresh 4 2 1 env mode)))
           [("test", 1); ("test", 2); ("test", 3); ("test", 4)]).
  - split; vm_compute; reflexivity.
  - split; vm_compute; discriminate.
  - vm_compute. reflexivity.
Defined.

(** *** C3 *)



(** *** C5 *)



(** *** C7 *)

(** C7.  With test cadence 2 and an epoch budget of 4 the run does
    not get past epoch 1: the train pass of epoch 1 runs, the test
    pass is skipped, and the report step raises [KeyError] on
    "confusion_matrix", which the stats of the train pass do not have.
    No test pass runs, and no train pass after the first.  Without a
    visdom environment the run stops at the same step with
    [AttributeError]. *)
Theorem fit_cadence_two_aborts :
  (let r := fit (fresh 4 2 2 env mode) in
   snd r = Raised (KeyError "confusion_matrix") /\
   epoch (fst r) = 1 /\
   train_passes (out (fst r)) = [Some 1] /\
   test_passes (out (fst r)) = []) /\
  (let r := fit (fresh 4 2 2 None mode) in
   snd r = Raised (AttributeError "visdom") /\
   epoch (fst r) = 1 /\
   train_passes (out (fst r)) = [Some 1] /\
   test_passes (out (fst r)) = []).
Proof. vm_compute. repeat split. Qed.

(** *** C8 *)



(** *** C9 *)

(** With [epochs = 0] there is no epoch to run: [fit] returns without
    touching [visdom]. *)
Lemma fit_without_visdom_returns :
  visdom (fresh 0 0 1 None mode) = None /\
  snd (fit (fresh 0 0 1 None mode)) = Ok [] /\
  train_passes (out (fst (fit (fresh 0 0 1 None mode)))) = [].
Proof. vm_compute. repeat split. Qed.

Lemma fit_without_visdom_witness :
  (exists e, snd (fit (fresh 4 2 1 None mode)) = Raised e) /\
  epoch (fst (fit (fresh 4 2 1 None mode))) = 1 /\
  snd (fit (fresh 4 2 1 None mode)) = Raised (AttributeError "visdom").
Proof.
  destruct (fit_without_visdom (fresh 4 2 1 None mode)) as (Hr & Hep & Hat).
  - reflexivity.
  - vm_compute. reflexivity.
  - split; [exact Hr|]. split; [exact Hep|].
    rewrite (Hat (fst (epoch_passes (fresh 4 2 1 None mode)))
               (match snd (epoch_passes (fresh 4 2 1 None mode)) with
                | Ok st => st
                | Raised _ => ∅
                end)).
    + reflexivity.
    + vm_compute. reflexivity.
Defined.
End Runs.

(** * Further properties of the trainer *)

(** ** Loss dispatch *)

Section DispatchProperties.
Context `{Ty : Types}.
Context `{!TensorOps, !ModelOps, !OptimizerOps, !MetricOps, !LoggerOps}.
Local Open Scope trainer_scope.

Lemma accepted_iff (m : string) :
  In m accepted_loss_modes <->
  String.eqb m "early_reward" || String.eqb m "loss_cross_entropy"
  || String.eqb m "twophase_early_reward"
  || String.eqb m "twophase_linear_loss"
  || String.eqb m "twophase_cross_entropy" = true.
Proof.
  unfold accepted_loss_modes. simpl.
  rewrite !orb_true_iff, !String.eqb_eq. intuition congruence.
Qed.

(** X1. [loss_criterion] has two outcomes only: it returns the output
    of one of the model's losses, or it raises the [ValueError] on the
    loss mode.  It never falls off the end of its two-phase branches
    (the caller's unpacking never meets [None]), and it raises exactly
    when the epoch argument is non-null and the mode is not one of the
    five accepted strings. *)
Theorem loss_criterion_outcome (s : Trainer) (inputs targets : Tensor)
    (e : option Z) (ef nf : Factor) :
  ((exists lo, loss_criterion s inputs targets e ef nf = Ok (Some lo)) \/
   loss_criterion s inputs targets e ef nf
   = Raised (ValueError wrong_loss_mode)) /\
  (loss_criterion s inputs targets e ef nf
   = Raised (ValueError wrong_loss_mode)
   <-> e <> None /\ ~ In (lossmode s) accepted_loss_modes).
Proof.
  rewrite accepted_iff. unfold loss_criterion, get_phase.
  destruct e as [e|].
  2:{ split; [left; eauto|]. split; [discriminate|]. intros [He _].
      contradiction. }
  destruct (String.eqb (lossmode s) "early_reward");
    [split; [left; eauto|split; [discriminate|intros [_ Hn]; simpl in Hn; congruence]]|].
  destruct (String.eqb (lossmode s) "loss_cross_entropy");
    [split; [left; eauto|split; [discriminate|intros [_ Hn]; simpl in Hn; congruence]]|].
  destruct (String.eqb (lossmode s) "twophase_early_reward").
  { destruct (epoch s <? switch_epoch s); simpl;
      (split; [left; eauto|split; [discriminate|intros [_ Hn]; congruence]]). }
  destruct (String.eqb (lossmode s) "twophase_linear_loss").
  { destruct (epoch s <? switch_epoch s); simpl;
      (split; [left; eauto|split; [discriminate|intros [_ Hn]; congruence]]). }
  destruct (String.eqb (lossmode s) "twophase_cross_entropy").
  { destruct (epoch s <? switch_epoch s); simpl;
      (split; [left; eauto|split; [discriminate|intros [_ Hn]; congruence]]). }
  simpl. split; [right; reflexivity|]. split; [|reflexivity].
  intros _. split; [discriminate|discriminate].
Qed.

(** X2. The dispatch reads the trainer only through its model, its
    loss mode and its phase: two trainers that agree on the three get
    the same result for the same arguments.  For the modes
    "loss_cross_entropy" and "early_reward", and for a null epoch
    argument, agreement on the phase is not needed: the result is the
    same in both phases. *)
Theorem loss_criterion_reads (s s' : Trainer) (inputs targets : Tensor)
    (e : option Z) (ef nf : Factor) :
  model s' = model s -> lossmode s' = lossmode s ->
  (get_phase s' = get_phase s \/ lossmode s = "loss_cross_entropy" \/
   lossmode s = "early_reward" \/ e = None) ->
  loss_criterion s' inputs targets e ef nf
  = loss_criterion s inputs targets e ef nf.
Proof.
  intros Hm Hl Hp. unfold loss_criterion. rewrite Hm, Hl.
  destruct e as [e|]; [|reflexivity].
  destruct Hp as [Hp|[Hp|[Hp|Hp]]]; [rewrite Hp; reflexivity| | |discriminate].
  - rewrite Hp. reflexivity.
  - rewrite Hp. reflexivity.
Qed.

(** X3. Each two-phase mode, for a non-null epoch argument and any
    switch epoch: while [epoch < switch_epoch] the dispatch is the
    model's plain cross-entropy loss; from [epoch >= switch_epoch] on
    it is [early_loss_simple] for "twophase_early_reward",
    [early_loss_linear] for "twophase_linear_loss" and
    [early_loss_cross_entropy] for "twophase_cross_entropy", with the
    factors it was called with. *)
Theorem twophase_dispatch (s : Trainer) (inputs targets : Tensor)
    (e : Z) (ef nf : Factor) :
  In (lossmode s)
    ["twophase_early_reward"; "twophase_linear_loss";
     "twophase_cross_entropy"] ->
  loss_criterion s inputs targets (Some e) ef nf =
    if epoch s <? switch_epoch s then
      Ok (Some (loss_cross_entropy (model s) inputs targets))
    else if String.eqb (lossmode s) "twophase_early_reward" then
      Ok (Some (early_loss_simple (model s) inputs targets ef))
    else if String.eqb (lossmode s) "twophase_linear_loss" then
      Ok (Some (early_loss_linear (model s) inputs targets ef nf))
    else
      Ok (Some (early_loss_cross_entropy (model s) inputs targets ef nf)).
Proof.
  unfold loss_criterion, get_phase. simpl.
  intros [Hm|[Hm|[Hm|[]]]]; rewrite <- Hm; simpl;
    destruct (epoch s <? switch_epoch s); reflexivity.
Qed.
End DispatchProperties.

(** ** Checkpoints, the constructor and the epoch counter *)

Section RunProperties.
Context `{Ty : Types}.
Context `{!TensorOps, !ModelOps, !OptimizerOps, !MetricOps, !LoggerOps}.
Local Open Scope trainer_scope.

Lemma string_app_assoc (a b c : string) :
  a +:+ b +:+ c = (a +:+ b) +:+ c.
Proof.
  induction a as [|x a IH]; [reflexivity|].
  change (String x (a +:+ b +:+ c) = String x ((a +:+ b) +:+ c)).
  rewrite IH. reflexivity.
Qed.

(** X4. The two checkpoint slots are two different files of the same
    directory, whatever the store: the file names
    [model_classification.pth] and [model_earliness.pth] appended to one
    prefix.  A save to one slot never overwrites the other. *)
Theorem checkpoint_slots_distinct (s : Trainer) :
  get_classification_model_name s <> get_earliness_model_name s /\
  exists prefix,
    get_classification_model_name s = prefix +:+ "model_classification.pth" /\
    get_earliness_model_name s = prefix +:+ "model_earliness.pth".
Proof.
  unfold get_classification_model_name, get_earliness_model_name.
  change ("model_" +:+ CLASSIFICATION_PHASE_NAME +:+ ".pth")
    with "model_classification.pth".
  change ("model_" +:+ EARLINESS_PHASE_NAME +:+ ".pth")
    with "model_earliness.pth".
  split.
  - intros Heq. pose proof (slots_differ (store s)) as Hd.
    rewrite <- Heq, String.eqb_refl in Hd. discriminate.
  - unfold path_join.
    destruct (String.eqb (store s) ""); [exists ""; split; reflexivity|].
    destruct (String.eqb _ "/").
    + exists (store s). split; reflexivity.
    + exists (store s +:+ "/"). split; apply string_app_assoc.
Qed.

Lemma check_events_frame s :
  model (fst (check_events s)) = model s /\
  optimizer (fst (check_events s)) = optimizer s /\
  logger (fst (check_events s)) = logger s.
Proof.
  unfold check_events, bind, get.
  destruct (epoch s =? 0); [repeat split|].
  destruct (epoch s =? switch_epoch s); [repeat split|].
  destruct (epoch s =? epochs s); repeat split.
Qed.

(** X5. What an event check leaves on disk.  At an epoch other than 0,
    with a storage that hands back what it was given: when the epoch is
    [switch_epoch], the classification slot then holds the current
    epoch, optimizer state and logged series; when it is [epochs] and
    not [switch_epoch], the earliness slot does. *)
Theorem event_checkpoint_content (s : Trainer) (m0 : Model) :
  faithful_storage -> epoch s <> 0 ->
  let saved :=
    {| snapshot_optimizer_state_dict := state_dict (optimizer s);
       snapshot_epoch := epoch s;
       snapshot_logged_data := get_data (logger s) |} in
  (epoch s = switch_epoch s ->
   exists m',
     model_load (fs (fst (check_events s)))
       (get_classification_model_name s) m0 = Some (m', saved)) /\
  (epoch s <> switch_epoch s -> epoch s = epochs s ->
   exists m',
     model_load (fs (fst (check_events s)))
       (get_earliness_model_name s) m0 = Some (m', saved)).
Proof.
  intros Hst Hz saved. unfold check_events, bind, get.
  destruct (Z.eqb_spec (epoch s) 0); [contradiction|].
  split.
  - intros Hsw. destruct (Z.eqb_spec (epoch s) (switch_epoch s));
      [|contradiction].
    simpl. apply Hst.
  - intros Hsw Hep.
    destruct (Z.eqb_spec (epoch s) (switch_epoch s)); [contradiction|].
    destruct (Z.eqb_spec (epoch s) (epochs s)); [|contradiction].
    simpl. apply Hst.
Qed.

(** X6. The three outcomes of the constructor.  With [overwrite] set,
    or without a file in the classification slot, the trainer starts at
    epoch 0 with the given model and a new optimizer and logger, and
    nothing is printed.  Otherwise the constructor announces the resume
    and loads the classification slot: when the load succeeds the
    trainer starts at the saved epoch with the saved optimizer state
    and logged series, and when it fails the constructor raises the
    load error.  In every case the configuration is the one given. *)
Theorem constructor_outcomes (a : Arguments) (world : FileSystem) :
  let name := path_join (arg_store a) "model_classification.pth" in
  let s := fst (__init__ a world) in
  (epochs s = arg_epochs a /\ switch_epoch s = arg_switch_epoch a /\
   test_every_n_epochs s = arg_test_every_n_epochs a /\
   lossmode s = arg_loss_mode a /\ visdom s = arg_visdomenv a /\
   store s = arg_store a /\ fs s = world) /\
  (arg_overwrite a = true \/ path_exists world name = false ->
   snd (__init__ a world) = Ok tt /\ epoch s = 0 /\ out s = [] /\
   model s = arg_model a /\
   optimizer s = Adam (arg_model a) (arg_learning_rate a) /\
   logger s = new_logger ["accuracy"] ["train"; "test"] (arg_store a)) /\
  (arg_overwrite a = false -> path_exists world name = true ->
   out s = [Print ("Resuming from snapshot " +:+ name +:+ ".")] /\
   match model_load world name (arg_model a) with
   | Some (m, snap) =>
       snd (__init__ a world) = Ok tt /\
       epoch s = snapshot_epoch snap /\
       optimizer s
       = load_state_dict (Adam (arg_model a) (arg_learning_rate a))
           (snapshot_optimizer_state_dict snap) /\
       logger s
       = logger_resume (new_logger ["accuracy"] ["train"; "test"] (arg_store a))
           (snapshot_logged_data snap)
   | None =>
       snd (__init__ a world) = Raised (LoadError name) /\ epoch s = 0
   end).
Proof.
  cbv zeta. unfold __init__. cbv zeta.
  unfold get_classification_model_name. simpl.
  change ("model_" +:+ CLASSIFICATION_PHASE_NAME +:+ ".pth")
    with "model_classification.pth".
  remember (path_join (arg_store a) "model_classification.pth") as name
    eqn:Hname.
  destruct (path_exists world name) eqn:Hex;
    destruct (arg_overwrite a) eqn:Hov; simpl.
  - split; [repeat split|]. split; [intros _; repeat split|]. discriminate.
  - unfold bind, emit, modify. rewrite resume_eq. simpl.
    destruct (model_load world name (arg_model a)) as [[m snap]|]; simpl.
    + split; [repeat split|]. split; [intros [|]; discriminate|].
      intros _ _. repeat split.
    + split; [repeat split|]. split; [intros [|]; discriminate|].
      intros _ _. repeat split.
  - split; [repeat split|]. split; [intros _; repeat split|]. discriminate.
  - split; [repeat split|]. split; [intros _; repeat split|]. discriminate.
Qed.

(** X7. The epoch counter over a run.  [fit] never changes the
    configuration.  A run that returns leaves the counter at [epochs],
    or where it was if it was already past [epochs], and returns the
    attribute [data] of the logger; a run that raises has advanced the
    counter by at least one and not past [epochs]. *)
Theorem fit_epoch_counter (s : Trainer) :
  frozen (fst (fit s)) = frozen s /\
  epoch s <= epoch (fst (fit s)) /\
  match snd (fit s) with
  | Ok d =>
      epoch (fst (fit s)) = Z.max (epoch s) (epochs s) /\
      d = data (logger (fst (fit s)))
  | Raised _ => epoch s < epoch (fst (fit s)) <= epochs s
  end.
Proof.
  destruct (fit_out s) as (F & _ & E).
  split; [exact F|]. split; [|exact E].
  destruct (snd (fit s)); lia.
Qed.

(** X8. [fit] on a trainer whose counter has reached the epoch budget
    runs no pass: it makes the event check of the current epoch and
    returns the logged series, with the model, the optimizer and the
    logger untouched.  So a second [fit] after a completed run fires the
    event of the last epoch again. *)
Theorem fit_budget_used_up (s : Trainer) :
  epochs s <= epoch s ->
  fit s = (fst (check_events s), Ok (data (logger s))) /\
  out (fst (fit s)) = out s ++ check_out s (epoch s) /\
  model (fst (fit s)) = model s /\ optimizer (fst (fit s)) = optimizer s /\
  logger (fst (fit s)) = logger s /\ epoch (fst (fit s)) = epoch s.
Proof.
  intros Hle.
  destruct (check_events_out s) as (s1 & C & _ & Ep & Hout).
  destruct (check_events_frame s) as (Hm & Ho & Hl).
  assert (Hfit : fit s = (fst (check_events s), Ok (data (logger s)))).
  { rewrite fit_eq.
    replace (Z.to_nat (epochs s - epoch s)) with 0%nat by lia.
    simpl. rewrite C in *. simpl in *. rewrite Hl. reflexivity. }
  rewrite Hfit, C. simpl. rewrite C in Hm, Ho, Hl. simpl in *.
  repeat split; assumption.
Qed.

Lemma prints_check_out s e :
  prints (check_out s e) =
    if e =? 0 then [notification StartingClassification]
    else if e =? switch_epoch s then
      [notification EndingClassification; notification StartingEarliness]
    else if e =? epochs s then [notification EndingEarliness]
    else [].
Proof.
  unfold check_out.
  destruct (e =? 0); [reflexivity|].
  destruct (e =? switch_epoch s); [reflexivity|].
  destruct (e =? epochs s); reflexivity.
Qed.

(** X9. The notifications of a whole run.  For a configuration with
    [0 < switch_epoch < epochs], a run that starts at epoch 0 and
    returns prints the four phase notifications once each and in this
    order: StartingClassification (at epoch 0), EndingClassification
    and StartingEarliness (at [switch_epoch]), EndingEarliness (at
    [epochs]); it prints nothing else. *)
Theorem fresh_run_notifications (s s' : Trainer) (d : LoggedData) :
  0 < switch_epoch s < epochs s -> epoch s = 0 ->
  fit s = (s', Ok d) ->
  exists q,
    out s' = out s ++ q /\
    prints q =
      [notification StartingClassification;
       notification EndingClassification;
       notification StartingEarliness;
       notification EndingEarliness].
Proof.
  intros Hsw He Hfit.
  destruct (fit_saves s) as (q & O & _ & Pr).
  rewrite (checked_ok s d) in Pr by (rewrite Hfit; reflexivity).
  rewrite Hfit in O. simpl in O.
  exists q. split; [exact O|]. rewrite Pr, He.
  replace (Z.max 0 (epochs s) - 0 + 1)
    with (1 + ((switch_epoch s - 1)
               + (1 + ((epochs s - switch_epoch s - 1) + 1)))) by lia.
  rewrite (seqZ_app 0 1) by lia.
  rewrite (seqZ_app (0 + 1) (switch_epoch s - 1)) by lia.
  rewrite (seqZ_app (0 + 1 + (switch_epoch s - 1)) 1) by lia.
  rewrite (seqZ_app (0 + 1 + (switch_epoch s - 1) + 1)
             (epochs s - switch_epoch s - 1) 1) by lia.
  rewrite !List.flat_map_app.
  replace (0 + 1 + (switch_epoch s - 1)) with (switch_epoch s) by lia.
  replace (switch_epoch s + 1 + (epochs s - switch_epoch s - 1))
    with (epochs s) by lia.
  rewrite (flat_map_nil _ (seqZ (0 + 1) _)).
  2:{ intros e Hin. apply In_seqZ in Hin. rewrite prints_check_out.
      destruct (Z.eqb_spec e 0); [lia|].
      destruct (Z.eqb_spec e (switch_epoch s)); [lia|].
      destruct (Z.eqb_spec e (epochs s)); [lia|reflexivity]. }
  rewrite (flat_map_nil _ (seqZ (switch_epoch s + 1) _)).
  2:{ intros e Hin. apply In_seqZ in Hin. rewrite prints_check_out.
      destruct (Z.eqb_spec e 0); [lia|].
      destruct (Z.eqb_spec e (switch_epoch s)); [lia|].
      destruct (Z.eqb_spec e (epochs s)); [lia|reflexivity]. }
  rewrite !seqZ_one. simpl. rewrite !prints_check_out.
  destruct (Z.eqb_spec (switch_epoch s) 0); [lia|].
  rewrite Z.eqb_refl.
  destruct (Z.eqb_spec (epochs s) 0); [lia|].
  destruct (Z.eqb_spec (epochs s) (switch_epoch s)); [lia|].
  rewrite Z.eqb_refl. reflexivity.
Qed.
End RunProperties.

(** ** The two epoch passes *)

Section PassProperties.
Context `{Ty : Types}.
Context `{!TensorOps, !ModelOps, !OptimizerOps, !MetricOps, !LoggerOps}.
Local Open Scope trainer_scope.

(** The dispatch of a pass succeeds exactly for a null epoch or an
    accepted mode. *)
Lemma loss_dispatch_cases s inputs targets e ef nf :
  (e = None \/ In (lossmode s) accepted_loss_modes ->
   exists lo, loss_criterion s inputs targets e ef nf = Ok (Some lo)) /\
  (e <> None -> ~ In (lossmode s) accepted_loss_modes ->
   loss_criterion s inputs targets e ef nf
   = Raised (ValueError wrong_loss_mode)).
Proof.
  split.
  - intros Hacc.
    destruct (loss_criterion s inputs targets e ef nf) as [[lo|]|x] eqn:Hl.
    + eauto.
    + exfalso. exact (loss_criterion_returns _ _ _ _ _ _ Hl).
    + exfalso. revert Hl. unfold loss_criterion, get_phase.
      destruct e as [e|]; [|discriminate].
      destruct Hacc as [Hacc|Hacc]; [discriminate|].
      apply accepted_iff in Hacc.
      destruct (String.eqb (lossmode s) "early_reward"); [discriminate|].
      destruct (String.eqb (lossmode s) "loss_cross_entropy");
        [discriminate|].
      destruct (String.eqb (lossmode s) "twophase_early_reward");
        [destruct (epoch s <? switch_epoch s); discriminate|].
      destruct (String.eqb (lossmode s) "twophase_linear_loss");
        [destruct (epoch s <? switch_epoch s); discriminate|].
      destruct (String.eqb (lossmode s) "twophase_cross_entropy");
        [destruct (epoch s <? switch_epoch s); discriminate|].
      discriminate.
  - intros He Hn. destruct e as [e|]; [|contradiction].
    apply not_accepted in Hn as (E1 & E2 & E3 & E4 & E5).
    unfold loss_criterion. rewrite E1, E2, E3, E4, E5. reflexivity.
Qed.

(** A test batch leaves the trainer as it is. *)
Lemma test_batch_state e metric batch s :
  fst (test_batch e metric batch s) = s.
Proof.
  unfold test_batch, bind, get, lift.
  destruct (loss_criterion _ _ _ _ _ _) as [[lo|]|x]; simpl; try reflexivity.
  destruct (metric_add _ _) as [m1 folded].
  destruct (update_confmat _ _ _) as [m2 acc]. reflexivity.
Qed.

Lemma test_batches_state e l :
  forall metric acc s, fst (test_batches e metric acc l s) = s.
Proof.
  induction l as [|b l IH]; intros metric acc s; simpl; [reflexivity|].
  unfold bind. pose proof (test_batch_state e metric b s) as Hb.
  destruct (test_batch e metric b s) as [s1 [[m1 loc]|x]]; simpl in Hb;
    subst s1; [apply IH|reflexivity].
Qed.

Lemma test_epoch_state (e : option Z) (s : Trainer) :
  fst (test_epoch e s)
  = with_model (model_eval (model s)) (with_out (out s ++ [TestEpoch e]) s).
Proof.
  unfold test_epoch, bind at 1, emit, modify.
  unfold bind at 1. unfold bind at 1, get. unfold bind.
  match goal with |- context [test_batches ?a ?b ?c ?d ?f] =>
    pose proof (test_batches_state a d b c f) as Hs;
    destruct (test_batches a b c d f) as [s1 [[m1 [loc|]]|x]] end;
    simpl in Hs; subst s1; reflexivity.
Qed.

(** X10. A test pass evaluates only.  Whatever its outcome, it leaves
    the trainer as it was except for two things: the model has been
    switched to evaluation mode, and the trace has the entry of the
    pass.  The optimizer, the logger, the epoch counter, the files and
    the configuration are untouched: no optimizer step, no gradient,
    no logging happens inside [test_epoch]. *)
Theorem test_epoch_evaluates_only (e : option Z) (s : Trainer) :
  let s' := fst (test_epoch e s) in
  model s' = model_eval (model s) /\ optimizer s' = optimizer s /\
  logger s' = logger s /\ epoch s' = epoch s /\ fs s' = fs s /\
  frozen s' = frozen s /\ out s' = out s ++ [TestEpoch e].
Proof.
  cbv zeta. rewrite test_epoch_state. simpl.
  repeat split.
Qed.

(** A train batch changes the model and the optimizer only. *)
Lemma train_batch_frame e metric batch s :
  let s' := fst (train_batch e metric batch s) in
  frozen s' = frozen s /\ epoch s' = epoch s /\ fs s' = fs s /\
  logger s' = logger s /\ out s' = out s.
Proof.
  unfold train_batch, bind, modify, get, lift. simpl.
  destruct (loss_criterion _ _ _ _ _ _) as [[lo|]|x]; simpl;
    try (repeat split; reflexivity).
  destruct (step _ _) as [o m].
  destruct (metric_add _ _) as [m1 folded].
  destruct (update_confmat _ _ _) as [m2 acc]. repeat split.
Qed.

Lemma train_batches_frame e l :
  forall metric acc s,
    let s' := fst (train_batches e metric acc l s) in
    frozen s' = frozen s /\ epoch s' = epoch s /\ fs s' = fs s /\
    logger s' = logger s /\ out s' = out s.
Proof.
  induction l as [|b l IH]; intros metric acc s; simpl;
    [repeat split|].
  unfold bind.
  destruct (train_batch_frame e metric b s) as (F & Ep & W & L & Hout).
  destruct (train_batch e metric b s) as [s1 [[m1 st]|x]]; simpl in *.
  - destruct (IH m1 (Some st) s1) as (F2 & Ep2 & W2 & L2 & Hout2).
    repeat split; congruence.
  - repeat split; assumption.
Qed.

Lemma train_epoch_state (e : option Z) (s : Trainer) :
  let s' := fst (train_epoch e s) in
  frozen s' = frozen s /\ epoch s' = epoch s /\ fs s' = fs s /\
  logger s' = logger s /\ out s' = out s ++ [TrainEpoch e].
Proof.
  unfold train_epoch, bind at 1, emit, modify.
  unfold bind at 1. unfold bind at 1, get. unfold bind.
  match goal with |- context [train_batches ?a ?b ?c ?d ?f] =>
    destruct (train_batches_frame a d b c f) as (F & Ep & W & L & Hout);
    destruct (train_batches a b c d f) as [s1 [[st|]|x]] end;
    simpl in *; repeat split; assumption.
Qed.

(** X11. A train pass changes the model and the optimizer only.
    Whatever its outcome, the configuration, the epoch counter, the
    checkpoint files and the logger are as before, and the trace has
    gained the entry of the pass and nothing else: a train pass prints
    nothing, saves nothing and logs nothing. *)
Theorem train_epoch_frame (e : option Z) (s : Trainer) :
  let s' := fst (train_epoch e s) in
  frozen s' = frozen s /\ epoch s' = epoch s /\ fs s' = fs s /\
  logger s' = logger s /\ out s' = out s ++ [TrainEpoch e] /\
  prints (out s') = prints (out s) /\ saves (out s') = saves (out s).
Proof.
  cbv zeta. destruct (train_epoch_state e s) as (F & Ep & W & L & Hout).
  repeat split; try assumption.
  - rewrite Hout, prints_app. simpl. apply app_nil_r.
  - rewrite Hout, saves_app. simpl. apply app_nil_r.
Qed.
End PassProperties.

Section PassOutcomes.
Context `{Ty : Types}.
Context `{!TensorOps, !ModelOps, !OptimizerOps, !MetricOps, !LoggerOps}.
Local Open Scope trainer_scope.

Lemma frozen_lossmode s s' : frozen s' = frozen s -> lossmode s' = lossmode s.
Proof. unfold frozen. congruence. Qed.

Lemma train_batch_ok e metric batch s :
  e = None \/ In (lossmode s) accepted_loss_modes ->
  exists metric' (st : Stats),
    snd (train_batch e metric batch s) = Ok (metric', st) /\
    is_Some (st !! "accuracy").
Proof.
  intros Hacc. unfold train_batch, bind, modify, get, lift. simpl.
  match goal with |- context [loss_criterion ?a ?b ?c ?d ?f ?g] =>
    destruct (proj1 (loss_dispatch_cases a b c d f g) Hacc) as [lo ->] end.
  simpl. destruct (step _ _) as [o m].
  destruct (metric_add _ _) as [m1 folded].
  destruct (update_confmat _ _ _) as [m2 acc]. simpl.
  eexists _, _. split; [reflexivity|].
  rewrite lookup_insert_eq. eauto.
Qed.

Lemma train_batch_raise e metric batch s :
  e <> None -> ~ In (lossmode s) accepted_loss_modes ->
  snd (train_batch e metric batch s) = Raised (ValueError wrong_loss_mode).
Proof.
  intros He Hn. unfold train_batch, bind, modify, get, lift. simpl.
  match goal with |- context [loss_criterion ?a ?b ?c ?d ?f ?g] =>
    rewrite (proj2 (loss_dispatch_cases a b c d f g) He Hn) end.
  reflexivity.
Qed.

Lemma train_batches_ok e l :
  forall metric acc s,
    e = None \/ In (lossmode s) accepted_loss_modes ->
    exists r,
      snd (train_batches e metric acc l s) = Ok r /\
      match l with
      | [] => r = acc
      | _ :: _ => exists st : Stats, r = Some st /\ is_Some (st !! "accuracy")
      end.
Proof.
  induction l as [|b l IH]; intros metric acc s Hacc; simpl.
  { exists acc. split; reflexivity. }
  unfold bind.
  destruct (train_batch_ok e metric b s Hacc) as (m1 & st1 & Hb & Hk).
  destruct (train_batch_frame e metric b s) as (F & _).
  destruct (train_batch e metric b s) as [s1 r1]. simpl in Hb, F. subst r1.
  destruct (IH m1 (Some st1) s1) as (r & Hr & Hl).
  { destruct Hacc as [Hacc|Hacc]; [left; exact Hacc|right].
    rewrite (frozen_lossmode _ _ F). exact Hacc. }
  exists r. split; [exact Hr|].
  destruct l as [|b' l']; [subst r; eauto|exact Hl].
Qed.

Lemma train_epoch_returns (e : option Z) (s : Trainer) :
  batches (traindataloader s) <> [] ->
  e = None \/ In (lossmode s) accepted_loss_modes ->
  exists st : Stats,
    snd (train_epoch e s) = Ok st /\ is_Some (st !! "accuracy").
Proof.
  intros Hne Hacc. unfold train_epoch, bind at 1, emit, modify.
  unfold bind at 1. unfold bind at 1, get. unfold bind. simpl.
  destruct (batches (traindataloader s)) as [|b l] eqn:Hb; [contradiction|].
  match goal with |- context [train_batches ?a ?b ?c ?d ?f] =>
    destruct (train_batches_ok a d b c f Hacc) as (r & Hr & st & -> & Hk);
    destruct (train_batches a b c d f) as [s1 r1] end.
  simpl in Hr. subst r1. simpl. eauto.
Qed.

(** X12. The outcome of a train pass over a non-empty data source.
    With a null epoch argument or an accepted loss mode the pass
    returns stats, and they have the key "accuracy".  With a non-null
    epoch argument and any other mode it raises the [ValueError] of the
    dispatch, at its first batch. *)
Theorem train_epoch_outcome (e : option Z) (s : Trainer) :
  batches (traindataloader s) <> [] ->
  (e = None \/ In (lossmode s) accepted_loss_modes ->
   exists st : Stats,
     snd (train_epoch e s) = Ok st /\ is_Some (st !! "accuracy")) /\
  (e <> None -> ~ In (lossmode s) accepted_loss_modes ->
   snd (train_epoch e s) = Raised (ValueError wrong_loss_mode)).
Proof.
  intros Hne. split; [apply train_epoch_returns, Hne|].
  intros He Hn. unfold train_epoch, bind at 1, emit, modify.
  unfold bind at 1. unfold bind at 1, get. unfold bind. simpl.
  destruct (batches (traindataloader s)) as [|b l] eqn:Hb; [contradiction|].
  simpl. unfold bind.
  match goal with |- context [train_batch ?a ?b ?c ?d] =>
    pose proof (train_batch_raise a b c d He Hn) as Hr;
    destruct (train_batch a b c d) as [s1 r1] end.
  simpl in Hr. subst r1. reflexivity.
Qed.

Lemma test_batch_ok e metric batch s :
  e = None \/ In (lossmode s) accepted_loss_modes ->
  exists metric' loc,
    test_batch e metric batch s = (s, Ok (metric', loc)) /\
    local_targets loc = to_device (snd batch) /\
    local_inputs loc = to_device (fst batch) /\
    is_Some (local_stats loc !! "accuracy").
Proof.
  intros Hacc. unfold test_batch, bind, get, lift.
  match goal with |- context [loss_criterion ?a ?b ?c ?d ?f ?g] =>
    destruct (proj1 (loss_dispatch_cases a b c d f g) Hacc) as [lo ->] end.
  simpl. destruct (metric_add _ _) as [m1 folded].
  destruct (update_confmat _ _ _) as [m2 acc]. simpl.
  eexists _, _. split; [reflexivity|]. simpl.
  repeat split. rewrite lookup_insert_eq. eauto.
Qed.

Lemma test_batches_last e s b l :
  e = None \/ In (lossmode s) accepted_loss_modes ->
  forall metric acc,
    exists metric' loc,
      test_batches e metric acc (l ++ [b]) s = (s, Ok (metric', Some loc)) /\
      local_targets loc = to_device (snd b) /\
      local_inputs loc = to_device (fst b) /\
      is_Some (local_stats loc !! "accuracy").
Proof.
  intros Hacc. induction l as [|a l IH]; intros metric acc; simpl.
  - unfold bind.
    destruct (test_batch_ok e metric b s Hacc) as (m1 & loc & -> & Hl).
    simpl. eauto.
  - unfold bind.
    destruct (test_batch_ok e metric a s Hacc) as (m1 & loc & -> & _).
    apply IH.
Qed.

(** X13. The outcome of a test pass over a non-empty data source.
    With a null epoch argument or an accepted loss mode the pass
    returns stats that carry everything the visual report reads: the
    targets and the inputs of the last batch, moved off the device, and
    the keys "confusion_matrix", "weights", "probas" and "accuracy".
    With a non-null epoch argument and any other mode it raises the
    [ValueError] of the dispatch. *)
Theorem test_epoch_outcome (e : option Z) (s : Trainer)
    (l : list (Tensor * Tensor)) (b : Tensor * Tensor) :
  batches (validdataloader s) = l ++ [b] ->
  (e = None \/ In (lossmode s) accepted_loss_modes ->
   exists st : Stats,
     snd (test_epoch e s) = Ok st /\
     st !! "targets" = Some (numpy (to_device (snd b))) /\
     st !! "inputs" = Some (numpy (to_device (fst b))) /\
     is_Some (st !! "confusion_matrix") /\ is_Some (st !! "weights") /\
     is_Some (st !! "probas") /\ is_Some (st !! "accuracy")) /\
  (e <> None -> ~ In (lossmode s) accepted_loss_modes ->
   snd (test_epoch e s) = Raised (ValueError wrong_loss_mode)).
Proof.
  intros Hb. unfold test_epoch, bind at 1, emit, modify.
  unfold bind at 1. unfold bind at 1, get. unfold bind. simpl.
  rewrite Hb. split.
  - intros Hacc.
    match goal with |- context [test_batches ?a ?m ?c (l ++ [b]) ?f] =>
      destruct (test_batches_last a f b l Hacc m c)
        as (m1 & loc & -> & Ht & Hi & Hk) end.
    simpl. eexists. split; [reflexivity|].
    rewrite <- Ht, <- Hi.
    repeat split;
      repeat (rewrite lookup_insert_ne by discriminate);
      rewrite ?lookup_insert_eq; eauto.
  - intros He Hn.
    destruct l as [|a l]; simpl; unfold bind;
      match goal with |- context [test_batch ?a ?b ?c ?d] =>
        pose proof (proj2 (loss_dispatch_cases d (to_device (fst c))
                             (to_device (snd c)) a (earliness_factor d)
                             (entropy_factor d)) He Hn) as Hr;
        unfold test_batch, bind, get, lift; rewrite Hr
      end; reflexivity.
Qed.
End PassOutcomes.

(** ** The visual report *)

Section ReportProperties.
Context `{Ty : Types}.
Context `{!TensorOps, !ModelOps, !OptimizerOps, !MetricOps, !LoggerOps}.
Local Open Scope trainer_scope.

Lemma with_out_same (s : Trainer) : with_out (out s ++ []) s = s.
Proof. destruct s. unfold with_out. simpl. rewrite app_nil_r. reflexivity. Qed.

Lemma plots_only_refl s : plots_only s s.
Proof. exists []. split; [symmetry; apply with_out_same|reflexivity]. Qed.

Lemma plots_only_trans s1 s2 s3 :
  plots_only s1 s2 -> plots_only s2 s3 -> plots_only s1 s3.
Proof.
  intros (q1 & -> & Q1) (q2 & -> & Q2). exists (q1 ++ q2). split.
  - unfold with_out. simpl. rewrite app_assoc. reflexivity.
  - rewrite forallb_app, Q1, Q2. reflexivity.
Qed.

Lemma PlotsOnly_ret {A} (a : A) : PlotsOnly (ret a).
Proof. intros s. apply plots_only_refl. Qed.

Lemma PlotsOnly_raise {A} x : PlotsOnly (@raise _ A x).
Proof. intros s. apply plots_only_refl. Qed.

Lemma PlotsOnly_get : PlotsOnly get.
Proof. intros s. apply plots_only_refl. Qed.

Lemma PlotsOnly_emit ev : is_visdom ev = true -> PlotsOnly (emit ev).
Proof.
  intros Q s. exists [ev]. split; [reflexivity|]. simpl. rewrite Q.
  reflexivity.
Qed.

Lemma PlotsOnly_bind {A B} (m : M A) (k : A -> M B) :
  PlotsOnly m -> (forall a, PlotsOnly (k a)) -> PlotsOnly (bind m k).
Proof.
  intros Hm Hk s. unfold bind. specialize (Hm s).
  destruct (m s) as [s1 [a|x]]; simpl in *; [|exact Hm].
  eapply plots_only_trans; [exact Hm|apply Hk].
Qed.

Lemma PlotsOnly_for_each {A} (l : list A) (body : A -> M unit) :
  (forall a, PlotsOnly (body a)) -> PlotsOnly (for_each l body).
Proof.
  intros Hb. induction l as [|a l IH]; simpl.
  - apply PlotsOnly_ret.
  - apply PlotsOnly_bind; [apply Hb|intros _; exact IH].
Qed.
End ReportProperties.

Ltac plots_steps :=
  repeat match goal with
    | |- PlotsOnly (ret _) => apply PlotsOnly_ret
    | |- PlotsOnly (raise _) => apply PlotsOnly_raise
    | |- PlotsOnly get => apply PlotsOnly_get
    | |- PlotsOnly (emit _) => apply PlotsOnly_emit; reflexivity
    | |- PlotsOnly (bind _ _) => apply PlotsOnly_bind; [|intros ?]
    | |- PlotsOnly (match ?x with _ => _ end) => destruct x
    | |- PlotsOnly (let _ := _ in _) => progress cbv zeta
    end.

Section ReportOutcome.
Context `{Ty : Types}.
Context `{!TensorOps, !ModelOps, !OptimizerOps, !MetricOps, !LoggerOps}.
Local Open Scope trainer_scope.

Lemma PlotsOnly_subscript_stats (d : Stats) key :
  PlotsOnly (subscript_stats d key).
Proof. unfold subscript_stats. plots_steps. Qed.

Lemma PlotsOnly_get_visdom : PlotsOnly get_visdom.
Proof. unfold get_visdom. plots_steps. Qed.

Lemma PlotsOnly_shape0 a : PlotsOnly (shape0 a).
Proof. unfold shape0. plots_steps. Qed.

Lemma PlotsOnly_report_sample st legend targets i :
  PlotsOnly (report_sample st legend targets i).
Proof.
  unfold report_sample. plots_steps;
    first [apply PlotsOnly_subscript_stats | apply PlotsOnly_get_visdom].
Qed.

(** The report step changes nothing but the trace, to which it adds
    calls on visdom only. *)
Lemma PlotsOnly_report st : PlotsOnly (report st).
Proof.
  unfold report. plots_steps;
    first [ apply PlotsOnly_subscript_stats | apply PlotsOnly_get_visdom
          | apply PlotsOnly_shape0
          | apply PlotsOnly_for_each; intros; apply PlotsOnly_report_sample ].
Qed.

Lemma bind_ok {A B} (m : M A) (k : A -> M B) s s1 a :
  m s = (s1, Ok a) -> bind m k s = k a s1.
Proof. unfold bind. intros ->. reflexivity. Qed.

Lemma subscript_ok (d : Stats) key v s :
  d !! key = Some v -> subscript_stats d key s = (s, Ok v).
Proof. unfold subscript_stats. intros ->. reflexivity. Qed.

Lemma get_visdom_ok s v : visdom s = Some v -> get_visdom s = (s, Ok v).
Proof. intros Hv. rewrite get_visdom_eq, Hv. reflexivity. Qed.

Lemma emit_eq ev s : emit ev s = (with_out (out s ++ [ev]) s, Ok tt).
Proof. reflexivity. Qed.

Lemma report_sample_ok (st : Stats) legend targets i s v probas inputs weights :
  visdom s = Some v ->
  st !! "probas" = Some probas -> st !! "inputs" = Some inputs ->
  st !! "weights" = Some weights ->
  exists q,
    report_sample st legend targets i s = (with_out (out s ++ q) s, Ok tt) /\
    length (List.filter is_bar q) = 1%nat.
Proof.
  intros Hv Hp Hi Hw. unfold report_sample. cbv zeta.
  rewrite (bind_ok _ _ _ _ _ (subscript_ok st "probas" probas s Hp)).
  destruct (Nat.eqb (length (shape probas)) 3).
  - rewrite bind_assoc.
    rewrite (bind_ok _ _ _ _ _ (get_visdom_ok s v Hv)).
    rewrite bind_assoc.
    rewrite (bind_ok _ _ _ _ _ (subscript_ok st "probas" probas s Hp)).
    rewrite (bind_ok _ _ _ _ _ (emit_eq _ s)).
    match goal with |- context [bind get_visdom ?k ?t] =>
      rewrite (bind_ok get_visdom k t t v (get_visdom_ok t v Hv)) end.
    match goal with |- context [bind (subscript_stats st "inputs") ?k ?t] =>
      rewrite (bind_ok _ k t t inputs (subscript_ok st "inputs" inputs t Hi))
    end.
    rewrite (bind_ok _ _ _ _ _ (emit_eq _ _)).
    match goal with |- context [bind get_visdom ?k ?t] =>
      rewrite (bind_ok get_visdom k t t v (get_visdom_ok t v Hv)) end.
    match goal with |- context [bind (subscript_stats st "weights") ?k ?t] =>
      rewrite (bind_ok _ k t t weights
                 (subscript_ok st "weights" weights t Hw))
    end.
    rewrite emit_eq. eexists. split.
    + unfold with_out. simpl. rewrite <- !app_assoc. reflexivity.
    + reflexivity.
  - rewrite (bind_ok (ret tt) _ s s tt eq_refl).
    rewrite (bind_ok _ _ _ _ _ (get_visdom_ok s v Hv)).
    rewrite (bind_ok _ _ _ _ _ (subscript_ok st "inputs" inputs s Hi)).
    rewrite (bind_ok _ _ _ _ _ (emit_eq _ _)).
    match goal with |- context [bind get_visdom ?k ?t] =>
      rewrite (bind_ok get_visdom k t t v (get_visdom_ok t v Hv)) end.
    match goal with |- context [bind (subscript_stats st "weights") ?k ?t] =>
      rewrite (bind_ok _ k t t weights
                 (subscript_ok st "weights" weights t Hw))
    end.
    rewrite emit_eq. eexists. split.
    + unfold with_out. simpl. rewrite <- !app_assoc. reflexivity.
    + reflexivity.
Qed.

Lemma report_samples_ok (st : Stats) legend targets v probas inputs weights :
  st !! "probas" = Some probas -> st !! "inputs" = Some inputs ->
  st !! "weights" = Some weights ->
  forall l s,
    visdom s = Some v ->
    exists q,
      for_each l (report_sample st legend targets) s
      = (with_out (out s ++ q) s, Ok tt) /\
      length (List.filter is_bar q) = length l.
Proof.
  intros Hp Hi Hw. induction l as [|i l IH]; intros s Hv; simpl.
  - exists []. split; [rewrite with_out_same; reflexivity|reflexivity].
  - unfold bind.
    destruct (report_sample_ok st legend targets i s v _ _ _ Hv Hp Hi Hw)
      as (q1 & -> & B1).
    destruct (IH (with_out (out s ++ q1) s) Hv) as (q2 & -> & B2).
    exists (q1 ++ q2). split.
    + unfold with_out. simpl. rewrite app_assoc. reflexivity.
    + rewrite List.filter_app, length_app, B1, B2. reflexivity.
Qed.

End ReportOutcome.

(** ** One iteration of the loop, step by step *)

Section IterationProperties.
Context `{Ty : Types}.
Context `{!TensorOps, !ModelOps, !OptimizerOps, !MetricOps, !LoggerOps}.
Local Open Scope trainer_scope.

Lemma new_epoch_eq s :
  new_epoch s = (with_epoch (epoch s + 1) (fst (check_events s)), Ok tt).
Proof.
  destruct (check_events_out s) as (s1 & C & _ & Ep & _).
  unfold new_epoch, bind, modify. rewrite C. simpl. rewrite Ep.
  reflexivity.
Qed.

(** The state in which the train pass of an iteration starts. *)
Lemma epoch_passes_eq s :
  epoch_passes s =
    match
      train_epoch (Some (epoch s + 1))
        (with_logger (set_mode (logger (fst (check_events s))) "train")
           (with_epoch (epoch s + 1) (fst (check_events s))))
    with
    | (s2, Ok st) =>
        test_step st
          (with_out
             (out s2 ++ [PrinterPrint st (epoch s + 1) (newline +:+ "train: ")])
             s2)
    | (s2, Raised x) => (s2, Raised x)
    end.
Proof.
  unfold epoch_passes. rewrite (bind_ok _ _ _ _ _ (new_epoch_eq s)).
  unfold bind at 1, modify at 1. unfold bind at 1, get at 1.
  unfold bind at 1. simpl epoch.
  destruct (train_epoch _ _) as [s2 [st|x]]; reflexivity.
Qed.

Lemma test_step_eq (st : Stats) s :
  test_step st s =
    if test_every_n_epochs s =? 0 then (s, Raised ZeroDivisionError)
    else if epoch s mod test_every_n_epochs s =? 0 then
      match
        test_epoch (Some (epoch s))
          (with_logger (set_mode (logger s) "test") s)
      with
      | (s2, Ok st') =>
          (with_out
             (out s2 ++ [PrinterPrint st' (epoch s) (newline +:+ "valid: ")])
             (with_logger (log (logger s2) st' (epoch s2)) s2),
           Ok st')
      | (s2, Raised x) => (s2, Raised x)
      end
    else (s, Ok st).
Proof.
  unfold test_step, bind at 1, get.
  destruct (test_every_n_epochs s =? 0); [reflexivity|].
  destruct (epoch s mod test_every_n_epochs s =? 0); [|reflexivity].
  unfold bind, modify, emit. simpl.
  destruct (test_epoch _ _) as [s2 [st'|x]]; reflexivity.
Qed.

Lemma test_epoch_keys e s s' (st : Stats) :
  test_epoch e s = (s', Ok st) -> is_Some (st !! "confusion_matrix").
Proof.
  unfold test_epoch, bind, emit, modify, get. simpl.
  destruct (test_batches _ _ _ _ _) as [s1 [[m1 [loc|]]|x]];
    try discriminate.
  intros [= _ <-].
  repeat (rewrite lookup_insert_ne by discriminate).
  rewrite lookup_insert_eq. eauto.
Qed.

(** The state before the train pass, seen from the start of the
    iteration. *)
Lemma before_train s :
  let s1 :=
    with_logger (set_mode (logger (fst (check_events s))) "train")
      (with_epoch (epoch s + 1) (fst (check_events s))) in
  frozen s1 = frozen s /\ epoch s1 = epoch s + 1 /\
  logger s1 = set_mode (logger s) "train" /\
  out s1 = out s ++ check_out s (epoch s).
Proof.
  destruct (check_events_out s) as (s0 & C & F & Ep & Hout).
  destruct (check_events_frame s) as (_ & _ & L).
  rewrite C in *. simpl in *. rewrite L. repeat split; assumption.
Qed.

Lemma frozen_cadence s s' :
  frozen s' = frozen s -> test_every_n_epochs s' = test_every_n_epochs s.
Proof. unfold frozen. congruence. Qed.

Lemma frozen_loader s s' :
  frozen s' = frozen s -> traindataloader s' = traindataloader s.
Proof. unfold frozen. congruence. Qed.

(** X15. A zero test cadence.  With [test_every_n_epochs = 0], an
    epoch left to run, a non-empty training source and an accepted loss
    mode, [fit] runs the train pass of its first epoch and then raises
    [ZeroDivisionError] at the cadence test: the counter has advanced
    by one and no test pass has run. *)
Theorem fit_zero_cadence (s : Trainer) :
  test_every_n_epochs s = 0 -> epoch s < epochs s ->
  batches (traindataloader s) <> [] ->
  In (lossmode s) accepted_loss_modes ->
  snd (fit s) = Raised ZeroDivisionError /\
  epoch (fst (fit s)) = epoch s + 1 /\
  exists q,
    out (fst (fit s)) = out s ++ q /\
    train_passes q = [Some (epoch s + 1)] /\ test_passes q = [].
Proof.
  intros Hn Hlt Hb Hacc.
  destruct (before_train s) as (F1 & Ep1 & _ & Hout1).
  pose proof (epoch_passes_eq s) as Hp.
  set (s1 := with_logger _ _) in *.
  destruct (train_epoch_returns (Some (epoch s + 1)) s1) as (st & Hr & _).
  { rewrite (frozen_loader _ _ F1). exact Hb. }
  { right. rewrite (frozen_lossmode _ _ F1). exact Hacc. }
  destruct (train_epoch_state (Some (epoch s + 1)) s1)
    as (F2 & Ep2 & _ & _ & Hout2).
  destruct (train_epoch (Some (epoch s + 1)) s1) as [s2 r2].
  simpl in Hr, F2, Ep2, Hout2. subst r2.
  rewrite test_step_eq in Hp. simpl test_every_n_epochs in Hp.
  rewrite (frozen_cadence _ _ F2), (frozen_cadence _ _ F1), Hn in Hp.
  simpl in Hp.
  assert (Hit : fit_iteration s
                = (with_out
                     (out s2 ++
                      [PrinterPrint st (epoch s + 1) (newline +:+ "train: ")])
                     s2, Raised ZeroDivisionError)).
  { rewrite fit_iteration_eq, Hp. reflexivity. }
  rewrite (fit_first_raise _ _ _ Hlt Hit). simpl.
  split; [reflexivity|]. split; [congruence|].
  eexists. split.
  - rewrite Hout2. change (out (fst (check_events s))) with (out s1).
    rewrite Hout1, <- !app_assoc. reflexivity.
  - clear. unfold check_out.
    destruct (epoch s =? 0); [split; reflexivity|].
    destruct (epoch s =? switch_epoch s); [split; reflexivity|].
    destruct (epoch s =? epochs s); split; reflexivity.
Qed.

End IterationProperties.

(** ** The schedule of the passes *)

Section Schedule.
Context `{Ty : Types}.
Context `{!TensorOps, !ModelOps, !OptimizerOps, !MetricOps, !LoggerOps}.
Local Open Scope trainer_scope.

Lemma train_passes_app (l1 l2 : list event) :
  train_passes (l1 ++ l2) = train_passes l1 ++ train_passes l2.
Proof.
  induction l1 as [|ev l1 IH]; [reflexivity|].
  destruct ev; simpl; rewrite ?IH; reflexivity.
Qed.

Lemma test_passes_app (l1 l2 : list event) :
  test_passes (l1 ++ l2) = test_passes l1 ++ test_passes l2.
Proof.
  induction l1 as [|ev l1 IH]; [reflexivity|].
  destruct ev; simpl; rewrite ?IH; reflexivity.
Qed.

Lemma passes_check_out s e :
  train_passes (check_out s e) = [] /\ test_passes (check_out s e) = [].
Proof.
  unfold check_out.
  destruct (e =? 0); [split; reflexivity|].
  destruct (e =? switch_epoch s); [split; reflexivity|].
  destruct (e =? epochs s); split; reflexivity.
Qed.

Lemma passes_visdom (q : list event) :
  forallb is_visdom q = true -> train_passes q = [] /\ test_passes q = [].
Proof.
  induction q as [|ev q IH]; [split; reflexivity|].
  simpl. intros Hq. apply andb_true_iff in Hq as [Hev Hq].
  destruct ev; try discriminate; simpl; apply IH, Hq.
Qed.

(** The passes of one iteration: always its train pass, and, when the
    iteration returns, its test pass if the new epoch is a multiple of
    the cadence. *)
Lemma fit_iteration_passes s :
  exists q,
    out (fst (fit_iteration s)) = out s ++ q /\
    train_passes q = [Some (epoch s + 1)] /\
    (snd (fit_iteration s) = Ok tt ->
     test_passes q =
       if (epoch s + 1) mod test_every_n_epochs s =? 0
       then [Some (epoch s + 1)] else []).
Proof.
  rewrite fit_iteration_eq.
  destruct (before_train s) as (F1 & Ep1 & _ & Hout1).
  destruct (passes_check_out s (epoch s)) as (Tc & Vc).
  pose proof (epoch_passes_eq s) as Hp.
  set (s1 := with_logger _ _) in *.
  destruct (train_epoch_state (Some (epoch s + 1)) s1)
    as (F2 & Ep2 & _ & _ & Hout2).
  destruct (train_epoch (Some (epoch s + 1)) s1) as [s2 [st0|x]];
    cbv beta iota delta [fst] in F2, Ep2, Hout2.
  2:{ rewrite Hp. simpl. eexists. split.
      - rewrite Hout2, Hout1, <- app_assoc. reflexivity.
      - rewrite train_passes_app, Tc. split; [reflexivity|discriminate]. }
  rewrite test_step_eq in Hp. simpl test_every_n_epochs in Hp.
  simpl epoch in Hp. simpl logger in Hp.
  rewrite (frozen_cadence _ _ F2), (frozen_cadence _ _ F1), Ep2, Ep1 in Hp.
  destruct (Z.eqb_spec (test_every_n_epochs s) 0) as [Hz|Hz].
  { rewrite Hp. simpl. eexists. split.
    - rewrite Hout2, Hout1, <- !app_assoc. reflexivity.
    - rewrite train_passes_app, Tc. split; [reflexivity|discriminate]. }
  destruct ((epoch s + 1) mod test_every_n_epochs s =? 0).
  - match type of Hp with context [test_epoch ?a ?b] =>
      pose proof (test_epoch_state a b) as Hs;
      destruct (test_epoch a b) as [s3 [st|x]] end;
      simpl in Hs; rewrite Hp.
    + match goal with |- context [report ?a ?b] =>
        destruct (PlotsOnly_report a b) as (q & Hq & Hv);
        destruct (report a b) as [s4 r4] end.
      simpl in Hq. subst s4. simpl.
      destruct (passes_visdom q Hv) as (Tq & Vq).
      eexists. split.
      * rewrite Hs. simpl. rewrite Hout2, Hout1, <- !app_assoc.
        reflexivity.
      * rewrite !train_passes_app, !test_passes_app, Tc, Vc, Tq, Vq.
        split; reflexivity.
    + simpl. eexists. split.
      * rewrite Hs. simpl. rewrite Hout2, Hout1, <- !app_assoc.
        reflexivity.
      * rewrite !train_passes_app, Tc. split; [reflexivity|discriminate].
  - rewrite Hp.
    match goal with |- context [report ?a ?b] =>
      destruct (PlotsOnly_report a b) as (q & Hq & Hv);
      destruct (report a b) as [s4 r4] end.
    simpl in Hq. subst s4. simpl.
    destruct (passes_visdom q Hv) as (Tq & Vq).
    eexists. split.
    + rewrite Hout2, Hout1, <- !app_assoc. reflexivity.
    + rewrite !train_passes_app, !test_passes_app, Tc, Vc, Tq, Vq.
      split; reflexivity.
Qed.

Lemma fit_loop_passes fuel :
  forall s,
    exists q,
      out (fst (fit_loop fuel s)) = out s ++ q /\
      train_passes q
      = map Some (seqZ (epoch s + 1) (epoch (fst (fit_loop fuel s)) - epoch s)) /\
      (snd (fit_loop fuel s) = Ok tt ->
       test_passes q
       = map Some
           (List.filter (fun e => e mod test_every_n_epochs s =? 0)
              (seqZ (epoch s + 1)
                 (epoch (fst (fit_loop fuel s)) - epoch s)))).
Proof.
  induction fuel as [|fuel IH]; intros s.
  { simpl. exists []. rewrite Z.sub_diag, app_nil_r. repeat split. }
  rewrite fit_loop_S.
  destruct (epoch s <? epochs s).
  2:{ simpl. exists []. rewrite Z.sub_diag, app_nil_r. repeat split. }
  destruct (fit_iteration_out s) as (F & Ep & _).
  destruct (fit_iteration_passes s) as (q1 & O1 & T1 & V1).
  unfold bind. destruct (fit_iteration s) as [s1 [[]|x]]; simpl in *.
  - destruct (IH s1) as (q2 & O2 & T2 & V2).
    pose proof (fit_loop_out fuel s1) as (_ & Hle & _).
    exists (q1 ++ q2). split; [rewrite O2, O1, app_assoc; reflexivity|].
    rewrite (seqZ_cons (epoch s + 1)) by lia.
    replace (Z.succ (epoch s + 1)) with (epoch s1 + 1) by lia.
    replace (Z.pred (epoch (fit_loop fuel s1).1 - epoch s))
      with (epoch (fit_loop fuel s1).1 - epoch s1) by lia.
    split.
    + rewrite train_passes_app, T1, T2. reflexivity.
    + intros Hok. rewrite test_passes_app, (V1 eq_refl), (V2 Hok).
      rewrite (frozen_cadence _ _ F). simpl.
      destruct ((epoch s + 1) mod test_every_n_epochs s =? 0); reflexivity.
  - exists q1. split; [exact O1|]. rewrite Ep.
    replace (epoch s + 1 - epoch s) with 1 by lia. rewrite seqZ_one.
    split; [exact T1|discriminate].
Qed.

(** X17. The schedule of a run.  [fit] runs one train pass for every
    epoch it enters, in order, each with the new epoch as argument,
    whether it returns or raises.  A run that returns has entered every
    epoch after its first up to [epochs], and has run the test pass at
    exactly those of them that are multiples of [test_every_n_epochs],
    in order. *)
Theorem pass_schedule (s : Trainer) :
  exists q,
    out (fst (fit s)) = out s ++ q /\
    train_passes q
    = map Some (seqZ (epoch s + 1) (epoch (fst (fit s)) - epoch s)) /\
    (forall d, snd (fit s) = Ok d ->
       train_passes q = map Some (seqZ (epoch s + 1) (epochs s - epoch s)) /\
       test_passes q
       = map Some
           (List.filter (fun e => e mod test_every_n_epochs s =? 0)
              (seqZ (epoch s + 1) (epochs s - epoch s)))).
Proof.
  rewrite fit_eq.
  destruct (fit_loop_passes (Z.to_nat (epochs s - epoch s)) s)
    as (q & Hq & T & V).
  pose proof (fit_loop_epoch (Z.to_nat (epochs s - epoch s)) s
                (Nat.le_refl _)) as E.
  destruct (fit_loop _ s) as [s1 [[]|x]]; simpl in *.
  - destruct (check_events_out s1) as (s2 & C & _ & Ep2 & O2).
    destruct (passes_check_out s1 (epoch s1)) as (Tc & Vc).
    rewrite C. simpl.
    exists (q ++ check_out s1 (epoch s1)).
    split; [rewrite O2, Hq, app_assoc; reflexivity|].
    rewrite train_passes_app, test_passes_app, Tc, Vc, !app_nil_r, Ep2.
    split; [exact T|]. intros d _.
    assert (Hlen : seqZ (epoch s + 1) (epoch s1 - epoch s)
                   = seqZ (epoch s + 1) (epochs s - epoch s)).
    { rewrite E. destruct (Z.le_gt_cases (epochs s) (epoch s)).
      - rewrite !seqZ_nil by lia. reflexivity.
      - f_equal. lia. }
    rewrite T, (V eq_refl), Hlen. split; reflexivity.
  - exists q. split; [exact Hq|]. split; [exact T|]. discriminate.
Qed.
End Schedule.

(** ** More runs on the small implementation *)

Section MoreRuns.
Import Toy.

Lemma linear_accepted : In mode (@accepted_loss_modes).
Proof. right. right. right. left. reflexivity. Defined.

Lemma loss_criterion_outcome_witness :
  loss_criterion (fresh 4 2 1 env "sgd") 7 1 (Some 1) 7 3
  = Raised (ValueError wrong_loss_mode).
Proof.
  apply (proj2 (proj2 (loss_criterion_outcome (fresh 4 2 1 env "sgd")
                         7 1 (Some 1) 7 3))).
  split; [discriminate|exact sgd_not_accepted].
Defined.

Lemma loss_criterion_reads_witness :
  loss_criterion (at_epoch 0 4 2 1 env) 7 1 (Some 0) 7 3
  = loss_criterion (at_epoch 1 4 2 1 env) 7 1 (Some 0) 7 3.
Proof.
  apply (loss_criterion_reads (at_epoch 1 4 2 1 env) (at_epoch 0 4 2 1 env)).
  - reflexivity.
  - reflexivity.
  - left. reflexivity.
Defined.

Lemma twophase_dispatch_witness :
  loss_criterion (at_epoch 3 4 2 1 env) 7 1 (Some 3) 7 3
  = Ok (Some (toy_loss 3 7 1)).
Proof.
  exact (twophase_dispatch (at_epoch 3 4 2 1 env) 7 1 3 7 3
           (or_intror (or_introl eq_refl))).
Defined.

Lemma event_checkpoint_content_witness :
  exists m',
    model_load (fs (fst (check_events (at_epoch 2 4 2 1 env))))
      classification_slot 0
    = Some (m', {| snapshot_optimizer_state_dict := 0;
                   snapshot_epoch := 2;
                   snapshot_logged_data := [] |}).
Proof.
  destruct (proj1 (event_checkpoint_content (at_epoch 2 4 2 1 env) 0
                     toy_faithful_storage
                     (fun H : epoch (at_epoch 2 4 2 1 env) = 0 =>
                        eq_ind 2
                          (fun z => match z with 0 => False | _ => True end)
                          I 0 H)) eq_refl) as [m' Hm].
  exists m'. exact Hm.
Defined.

Lemma constructor_outcomes_witness :
  snd (__init__ (args 4 2 1 env mode true) ∅) = Ok tt /\
  epoch (fst (__init__ (args 4 2 1 env mode true) ∅)) = 0.
Proof.
  destruct (proj1 (proj2 (constructor_outcomes (args 4 2 1 env mode true) ∅))
              (or_introl eq_refl)) as (Hok & Hep & _).
  split; [exact Hok|exact Hep].
Defined.

Lemma fit_budget_used_up_witness :
  let s := fst (fit (fresh 4 2 1 env mode)) in
  fit s = (fst (check_events s), Ok (data (logger s))) /\
  prints (out (fst (fit s)))
  = prints (out s) ++ [notification EndingEarliness].
Proof.
  cbv zeta.
  destruct (fit_budget_used_up (fst (fit (fresh 4 2 1 env mode))))
    as (Hfit & Hout & _).
  - vm_compute. discriminate.
  - split; [exact Hfit|]. rewrite Hout, prints_app. reflexivity.
Defined.

Lemma fresh_run_notifications_witness :
  exists q,
    out (fst (fit (fresh 4 2 1 env mode))) = out (fresh 4 2 1 env mode) ++ q /\
    prints q =
      [notification StartingClassification;
       notification EndingClassification;
       notification StartingEarliness;
       notification EndingEarliness].
Proof.
  apply (fresh_run_notifications (fresh 4 2 1 env mode)
           (fst (fit (fresh 4 2 1 env mode)))
           [("test", 1); ("test", 2); ("test", 3); ("test", 4)]).
  - split; vm_compute; reflexivity.
  - reflexivity.
  - vm_compute. reflexivity.
Defined.

Lemma train_epoch_outcome_witness :
  (exists st : gmap string Z,
     snd (train_epoch (Some 1) (fresh 4 2 1 env mode)) = Ok st /\
     is_Some (st !! "accuracy")) /\
  snd (train_epoch (Some 1) (fresh 4 2 1 env "sgd"))
  = Raised (ValueError wrong_loss_mode).
Proof.
  split.
  - apply (proj1 (train_epoch_outcome (Some 1) (fresh 4 2 1 env mode)
                    ltac:(discriminate))).
    right. exact linear_accepted.
  - apply (proj2 (train_epoch_outcome (Some 1) (fresh 4 2 1 env "sgd")
                    ltac:(discriminate))).
    + discriminate.
    + exact sgd_not_accepted.
Defined.

Lemma test_epoch_outcome_witness :
  exists st : gmap string Z,
    snd (test_epoch (Some 1) (fresh 4 2 1 env mode)) = Ok st /\
    st !! "targets" = Some 1 /\ st !! "inputs" = Some 7.
Proof.
  destruct (proj1 (test_epoch_outcome (Some 1) (fresh 4 2 1 env mode)
                     [] batch eq_refl) (or_intror linear_accepted))
    as (st & Hok & Ht & Hi & _).
  exists st. split; [exact Hok|]. split; [exact Ht|exact Hi].
Defined.


Lemma fit_zero_cadence_witness :
  snd (fit (fresh 4 2 0 env mode)) = Raised ZeroDivisionError /\
  epoch (fst (fit (fresh 4 2 0 env mode))) = 1.
Proof.
  destruct (fit_zero_cadence (fresh 4 2 0 env mode)) as (Hr & Hep & _).
  - reflexivity.
  - vm_compute. reflexivity.
  - discriminate.
  - exact linear_accepted.
  - split; [exact Hr|exact Hep].
Defined.


Lemma pass_schedule_witness :
  exists q,
    out (fst (fit (fresh 4 2 1 env mode))) = out (fresh 4 2 1 env mode) ++ q /\
    train_passes q = [Some 1; Some 2; Some 3; Some 4] /\
    test_passes q = [Some 1; Some 2; Some 3; Some 4].
Proof.
  destruct (pass_schedule (fresh 4 2 1 env mode)) as (q & Hq & _ & Hok).
  destruct (Hok [("test", 1); ("test", 2); ("test", 3); ("test", 4)])
    as (Ht & Hv).
  - vm_compute. reflexivity.
  - exists q. split; [exact Hq|]. split; [exact Ht|exact Hv].
Defined.
End MoreRuns.

(** ** The phase of the passes, and resuming a finished run *)

Section ResumeProperties.
Context `{Ty : Types}.
Context `{!TensorOps, !ModelOps, !OptimizerOps, !MetricOps, !LoggerOps}.
Local Open Scope trainer_scope.

(** X18. The phase of the passes of an iteration.  The counter is
    advanced before the passes run, so the train pass of an iteration
    (and the test pass after it) is called with the new epoch and sees
    the phase of the new epoch: classification while
    [epoch + 1 < switch_epoch], earliness from [epoch + 1 = switch_epoch]
    on.  The pass of epoch [switch_epoch] is thus the first earliness
    pass, and it runs before the event check of epoch [switch_epoch]
    writes the classification slot. *)
Theorem passes_phase (s : Trainer) :
  exists s1,
    epoch s1 = epoch s + 1 /\ frozen s1 = frozen s /\
    out s1 = out s ++ check_out s (epoch s) /\
    get_phase s1
    = (if epoch s + 1 <? switch_epoch s then CLASSIFICATION_PHASE_NAME
       else EARLINESS_PHASE_NAME) /\
    get_phase (fst (train_epoch (Some (epoch s + 1)) s1)) = get_phase s1 /\
    epoch_passes s =
      match train_epoch (Some (epoch s + 1)) s1 with
      | (s2, Ok st) =>
          test_step st
            (with_out
               (out s2
                ++ [PrinterPrint st (epoch s + 1) (newline +:+ "train: ")])
               s2)
      | (s2, Raised x) => (s2, Raised x)
      end.
Proof.
  destruct (before_train s) as (F1 & Ep1 & _ & Hout1).
  pose proof (epoch_passes_eq s) as Hp.
  set (s1 := with_logger _ _) in *.
  destruct (train_epoch_state (Some (epoch s + 1)) s1) as (F2 & Ep2 & _).
  exists s1. split; [exact Ep1|]. split; [exact F1|]. split; [exact Hout1|].
  assert (Hsw : switch_epoch s1 = switch_epoch s)
    by (unfold frozen in F1; congruence).
  split; [|split; [|exact Hp]].
  - unfold get_phase. rewrite Ep1, Hsw. reflexivity.
  - unfold get_phase. cbv zeta in F2, Ep2. rewrite Ep2.
    replace (switch_epoch (fst (train_epoch (Some (epoch s + 1)) s1)))
      with (switch_epoch s1) by (unfold frozen in F2; congruence).
    reflexivity.
Qed.

Lemma check_events_fs s :
  fs (fst (check_events s)) =
    if epoch s =? 0 then fs s
    else if epoch s =? switch_epoch s then
      model_save (fs s) (get_classification_model_name s) (model s)
        {| snapshot_optimizer_state_dict := state_dict (optimizer s);
           snapshot_epoch := epoch s;
           snapshot_logged_data := get_data (logger s) |}
    else if epoch s =? epochs s then
      model_save (fs s) (get_earliness_model_name s) (model s)
        {| snapshot_optimizer_state_dict := state_dict (optimizer s);
           snapshot_epoch := epoch s;
           snapshot_logged_data := get_data (logger s) |}
    else fs s.
Proof.
  unfold check_events, bind, get.
  destruct (epoch s =? 0); [reflexivity|].
  destruct (epoch s =? switch_epoch s); [reflexivity|].
  destruct (epoch s =? epochs s); reflexivity.
Qed.

Lemma fit_iteration_fs s :
  fs (fst (fit_iteration s)) = fs (fst (check_events s)).
Proof.
  assert (S1 : silent (with_epoch (epoch s + 1) (fst (check_events s)))
                 (fst (fit_iteration s))).
  { unfold fit_iteration, epoch_passes. rewrite bind_assoc.
    apply Silent_after; [apply new_epoch_eq|].
    silent_steps;
      first [ apply Silent_train_epoch | apply Silent_test_step
            | apply Silent_report ]. }
  destruct S1 as (_ & _ & W & _). exact W.
Qed.

(** An event check keeps the classification checkpoint once the switch
    epoch is reached, and writes it there. *)
Lemma check_events_keeps s :
  keeping_storage -> faithful_storage ->
  switch_epoch s <> 0 ->
  (switch_epoch s < epoch s ->
   holds_checkpoint (fs s) (get_classification_model_name s) (switch_epoch s)) ->
  switch_epoch s <= epoch s ->
  holds_checkpoint (fs (fst (check_events s)))
    (get_classification_model_name s) (switch_epoch s).
Proof.
  intros Hk Hf Hz Hinv Hle. rewrite check_events_fs.
  destruct (Z.eqb_spec (epoch s) 0) as [E0|E0]; [apply Hinv; lia|].
  destruct (Z.eqb_spec (epoch s) (switch_epoch s)) as [Es|Es].
  { split; [apply Hk|]. intros m0.
    destruct (Hf (fs s) (get_classification_model_name s) (model s)
                {| snapshot_optimizer_state_dict := state_dict (optimizer s);
                   snapshot_epoch := epoch s;
                   snapshot_logged_data := get_data (logger s) |} m0)
      as [m' Hm].
    eexists _, _. split; [exact Hm|]. simpl. exact Es. }
  assert (Hold : holds_checkpoint (fs s) (get_classification_model_name s)
                   (switch_epoch s)) by (apply Hinv; lia).
  destruct (Z.eqb_spec (epoch s) (epochs s)); [|exact Hold].
  destruct Hold as (Hex & Hload).
  destruct (Hk (fs s) (get_earliness_model_name s) (model s)
              {| snapshot_optimizer_state_dict := state_dict (optimizer s);
                 snapshot_epoch := epoch s;
                 snapshot_logged_data := get_data (logger s) |})
    as (_ & Hother).
  destruct (Hother (get_classification_model_name s)) as (Hex' & Hload').
  { unfold get_classification_model_name, get_earliness_model_name.
    change ("model_" +:+ CLASSIFICATION_PHASE_NAME +:+ ".pth")
      with "model_classification.pth".
    change ("model_" +:+ EARLINESS_PHASE_NAME +:+ ".pth")
      with "model_earliness.pth".
    intros Heq. pose proof (slots_differ (store s)) as Hd.
    rewrite <- Heq, String.eqb_refl in Hd. discriminate. }
  split; [rewrite Hex'; exact Hex|].
  intros m0. rewrite Hload'. apply Hload.
Qed.

Lemma frozen_names s s' :
  frozen s' = frozen s ->
  switch_epoch s' = switch_epoch s /\ epochs s' = epochs s /\
  get_classification_model_name s' = get_classification_model_name s.
Proof.
  unfold frozen, get_classification_model_name. intros F.
  repeat split; congruence.
Qed.

Lemma fit_loop_keeps fuel :
  keeping_storage -> faithful_storage ->
  forall s,
    switch_epoch s <> 0 -> 0 <= epoch s ->
    (switch_epoch s < epoch s ->
     holds_checkpoint (fs s) (get_classification_model_name s)
       (switch_epoch s)) ->
    switch_epoch s < epoch (fst (fit_loop fuel s)) ->
    holds_checkpoint (fs (fst (fit_loop fuel s)))
      (get_classification_model_name s) (switch_epoch s).
Proof.
  intros Hk Hf. induction fuel as [|fuel IH]; intros s Hz Hpos Hinv.
  { simpl. exact Hinv. }
  rewrite fit_loop_S.
  destruct (epoch s <? epochs s); [|simpl; exact Hinv].
  destruct (fit_iteration_out s) as (F & Ep & _).
  pose proof (fit_iteration_fs s) as W.
  destruct (frozen_names _ _ F) as (Hsw & _ & Hname).
  assert (Hinv1 : switch_epoch s < epoch (fst (fit_iteration s)) ->
                  holds_checkpoint (fs (fst (fit_iteration s)))
                    (get_classification_model_name s) (switch_epoch s)).
  { intros Hlt. rewrite W. apply check_events_keeps; try assumption. lia. }
  unfold bind. destruct (fit_iteration s) as [s1 [[]|x]]; simpl in *.
  - intros Hlt. rewrite <- Hname, <- Hsw.
    apply IH; rewrite ?Hsw, ?Hname; try assumption; lia.
  - exact Hinv1.
Qed.

(** X19. Resuming after a finished run.  Take a storage that hands back
    what it was given and in which a save leaves the other files alone.
    After a run with [0 < switch_epoch < epochs] that started at epoch 0
    and returned, the classification slot holds a checkpoint of epoch
    [switch_epoch], although training has gone on to [epochs].  So a
    constructor with [overwrite] off on the same store returns a
    trainer at epoch [switch_epoch], not at [epochs]. *)
Theorem resume_after_finished_run (s s' : Trainer) (d : LoggedData)
    (a : Arguments) :
  keeping_storage -> faithful_storage ->
  0 < switch_epoch s < epochs s -> epoch s = 0 ->
  fit s = (s', Ok d) ->
  arg_store a = store s -> arg_overwrite a = false ->
  holds_checkpoint (fs s') (get_classification_model_name s)
    (switch_epoch s) /\
  snd (__init__ a (fs s')) = Ok tt /\
  epoch (fst (__init__ a (fs s'))) = switch_epoch s.
Proof.
  intros Hk Hf Hsw He Hfit Hstore Hov.
  assert (Hold : holds_checkpoint (fs s') (get_classification_model_name s)
                   (switch_epoch s)).
  { destruct (fit_ok_loop s s' d Hfit) as (Hok & Hep).
    revert Hfit. rewrite fit_eq.
    pose proof (fit_loop_keeps (Z.to_nat (epochs s - epoch s)) Hk Hf s)
      as Hloop.
    pose proof (fit_loop_out (Z.to_nat (epochs s - epoch s)) s)
      as (F & _ & _).
    destruct (fit_loop _ s) as [s1 [[]|x]]; simpl in *; [|discriminate].
    destruct (frozen_names _ _ F) as (Hsw1 & Hep1 & Hname1).
    pose proof (check_events_keeps s1 Hk Hf) as Hc.
    destruct (check_events s1) as [s2 [[]|x]]; simpl in *; [|discriminate].
    intros [= <- _]. rewrite <- Hname1, <- Hsw1.
    apply Hc; rewrite ?Hsw1, ?Hname1.
    - lia.
    - intros _. apply Hloop; lia.
    - lia. }
  split; [exact Hold|].
  destruct Hold as (Hex & Hload).
  unfold __init__. cbv zeta.
  unfold get_classification_model_name in *. simpl.
  rewrite Hstore, Hex, Hov. simpl.
  unfold bind, emit, modify. rewrite resume_eq. simpl.
  destruct (Hload (arg_model a)) as (m' & snap & Hm & Hep).
  rewrite Hm. simpl. split; [reflexivity|exact Hep].
Qed.
End ResumeProperties.

Section ResumeRuns.
Import Toy.

Lemma toy_keeping_storage : @keeping_storage types model_ops.
Proof.
  intros world f m snap. simpl. unfold toy_exists, toy_load, toy_save.
  split.
  - rewrite lookup_insert_eq. apply bool_decide_eq_true. eauto.
  - intros f' Hne. rewrite lookup_insert_ne by congruence.
    split; [reflexivity|]. intros m0. reflexivity.
Qed.

Lemma resume_after_finished_run_witness :
  snd (__init__ (args 4 2 1 env mode false)
         (fs (fst (fit (fresh 4 2 1 env mode))))) = Ok tt /\
  epoch (fst (__init__ (args 4 2 1 env mode false)
                (fs (fst (fit (fresh 4 2 1 env mode)))))) = 2.
Proof.
  destruct (resume_after_finished_run (fresh 4 2 1 env mode)
              (fst (fit (fresh 4 2 1 env mode)))
              [("test", 1); ("test", 2); ("test", 3); ("test", 4)]
              (args 4 2 1 env mode false)
              toy_keeping_storage toy_faithful_storage)
    as (_ & Hok & Hep).
  - split; vm_compute; reflexivity.
  - reflexivity.
  - vm_compute. reflexivity.
  - reflexivity.
  - reflexivity.
  - split; [exact Hok|exact Hep].
Defined.
End ResumeRuns.
